(** * TrajectoryPlannerROS: the controller loop of base_local_planner

    A shallow embedding of [base_local_planner/src/trajectory_planner_ros.cpp]
    and the properties of its per-cycle decision logic.

    Conventions of the embedding.
    - A C++ [double] is an exact rational ([Q]); rounding, infinities and
      NaN are not modelled.  Comparisons are the boolean tests the code
      performs ([Qltb], [Qle_bool]).  A literal is written in lowest
      terms, [0.0] as [0].
    - A [tf::Stamped<tf::Pose>] and a [geometry_msgs::Pose] are reduced to
      what the file reads from them: the planar origin and the yaw that
      [tf::getYaw] returns for the rotation.  A rotation made by
      [tf::createQuaternionFromYaw] has the yaw it was made from: this is
      so for a yaw in (-pi, pi]; the wrap that tf applies to a yaw outside
      of it, as to the angular velocity that line 512 stores in
      [robot_vel] when the robot turns faster than pi rad/s, is not
      modelled.
    - A [geometry_msgs::Twist] is reduced to linear.x, linear.y and
      angular.z, the components the file reads and assigns; linear.z,
      angular.x and angular.y, which it leaves as they are, are not
      modelled.
    - Member functions take the object explicitly and return its new value.
    - The collaborators ([tc_], [tf_], [costmap_ros_], libm, the [angles]
      package, the helpers declared in the header) are not part of the
      file: they are the methods of the class [Collaborators] and the
      fields of [Env], the answers the collaborators give during one call. *)

From Stdlib Require Import QArith Qabs Lqa ZArith List String Bool Lia.
Import ListNotations.
Open Scope string_scope.
Open Scope list_scope.
Open Scope Q_scope.

Set Implicit Arguments.

(** ** Numbers *)

(** [a < b] on doubles. *)
Definition Qltb (a b : Q) : bool := negb (Qle_bool b a).

Definition fabs (a : Q) : Q := Qabs a.

(** [std::max(a, b)] is [(a < b) ? b : a]; [std::min(a, b)] is
    [(b < a) ? b : a]. *)
Definition std_max (a b : Q) : Q := if Qltb a b then b else a.
Definition std_min (a b : Q) : Q := if Qltb b a then b else a.

(** The largest finite double, from [<cfloat>]. *)
Definition DBL_MAX : Q := inject_Z ((2 ^ 53 - 1) * 2 ^ 971).

(** [!n] for an unsigned [n], as the integer the comparison
    [!global_plan_.size() > 0] then reads. *)
Definition logical_not (n : nat) : nat := if Nat.eqb n 0 then 1%nat else 0%nat.

(** ** Messages and poses *)

Record Pose := mkPose { origin_x : Q; origin_y : Q; getYaw : Q }.

Record PoseStamped := mkPoseStamped {
  frame_id : string;
  stamp : Z;
  pose : Pose
}.

(** The three components of a [geometry_msgs::Twist] that the file reads
    and assigns. *)
Record Twist := mkTwist { linear_x : Q; linear_y : Q; angular_z : Q }.

Record Trajectory := mkTrajectory {
  cost_ : Q;
  points : list (Q * Q * Q)
}.

Record StampedTransform := mkStampedTransform {
  tr_apply : Pose -> Pose;
  tr_stamp : Z
}.

Record Path := mkPath {
  path_frame_id : string;
  path_stamp : Z;
  poses : list PoseStamped
}.

Inductive Publisher := g_plan_pub_ | l_plan_pub_.

(** The three exceptions of tf that the file catches. *)
Inductive tf_exception :=
| LookupException
| ConnectivityException
| ExtrapolationException.

Definition tf_result (A : Type) : Type := (A + tf_exception)%type.

(** The value a call computes, together with the record of whether it
    evaluated [operator[]] or [back()] of [global_plan_] outside the
    vector's range.  The C++ standard leaves such a call undefined; the
    model goes on as the compiled code does when the reference is merely
    bound, and keeps the fact. *)
Record Run (A : Type) := mkRun { value : A; out_of_range : bool }.

(** [std::vector::operator[]] and [back()]: an element only when the index
    is below [size()]. *)
Definition vec_at (A : Type) (v : list A) (n : nat) : option A := nth_error v n.

Definition vec_back (A : Type) (v : list A) : option A :=
  nth_error v (List.length v - 1).

Definition is_some (A : Type) (o : option A) : bool :=
  match o with Some _ => true | None => false end.

(** ** The planner object *)

(** The members that only [initialize] writes. *)
Record Params := mkParams {
  prune_plan_ : bool;
  yaw_goal_tolerance_ : Q;
  xy_goal_tolerance_ : Q;
  acc_lim_x_ : Q;
  acc_lim_y_ : Q;
  acc_lim_theta_ : Q;
  max_vel_th_ : Q;
  min_vel_th_ : Q;
  min_in_place_vel_th_ : Q;
  rot_stopped_velocity_ : Q;
  trans_stopped_velocity_ : Q;
  global_frame_ : string;
  robot_base_frame_ : string
}.

(** What [private_nh.param] yields for each key, defaults applied. *)
Record ParamServer := mkParamServer {
  prune_plan : bool;
  yaw_goal_tolerance : Q;
  xy_goal_tolerance : Q;
  acc_lim_x : Q;
  acc_lim_y : Q;
  acc_lim_th : Q;
  max_rotational_vel : Q;
  min_in_place_rotational_vel : Q
}.

Definition default_ParamServer : ParamServer :=
  {| prune_plan := true;
     yaw_goal_tolerance := 0.05;
     xy_goal_tolerance := 0.1;
     acc_lim_x := 2.5;
     acc_lim_y := 2.5;
     acc_lim_th := 3.2;
     max_rotational_vel := 1;
     min_in_place_rotational_vel := 0.4 |}.

Section Controller.

(** The state of the [TrajectoryPlanner] behind [tc_] and the costmap copy
    [costmap_] it reads. *)
Variables TrajectoryPlanner Costmap2D : Type.

Class Collaborators := {
  (** [sign], declared in trajectory_planner_ros.h *)
  sign : Q -> Q;
  (** libm *)
  sqrt : Q -> Q;
  (** [angles::shortest_angular_distance(from, to)] *)
  shortest_angular_distance : Q -> Q -> Q;
  (** [tc_->checkTrajectory(x, y, theta, vx, vy, vtheta, vx_samp, vy_samp,
      vtheta_samp)] *)
  checkTrajectory :
    TrajectoryPlanner -> Costmap2D ->
    Q -> Q -> Q -> Q -> Q -> Q -> Q -> Q -> Q -> bool;
  (** [tc_->updatePlan(plan)] *)
  updatePlan : TrajectoryPlanner -> list PoseStamped -> TrajectoryPlanner;
  (** [tc_->findBestPath(global_pose, global_vel, drive_velocities)]: the
      trajectory it returns and the drive command it writes *)
  findBestPath :
    TrajectoryPlanner -> Costmap2D -> Pose -> Pose ->
    TrajectoryPlanner * Trajectory * Pose;
  (** [new TrajectoryPlanner(...)] *)
  new_TrajectoryPlanner : Costmap2D -> ParamServer -> TrajectoryPlanner
}.

Context {collab : Collaborators}.

(** What [costmap_ros_], [tf_] and the clock answer during one call. *)
Record Env := mkEnv {
  getRobotPose : option Pose;
  getCostmapCopy : Costmap2D;
  getGlobalFrameID : string;
  getBaseFrameID : string;
  getSizeInCellsX : N;
  getSizeInCellsY : N;
  getResolution : Q;
  (** [lookupTransform(target, Time(), source, stamp, source, transform)] *)
  lookupTransform : string -> string -> Z -> tf_result StampedTransform;
  (** [transformPose(target, identity pose of the source frame)] *)
  transformPose : string -> string -> tf_result Pose;
  now : Z
}.

Record TrajectoryPlannerROS := mkPlanner {
  params : Params;
  initialized_ : bool;
  rotating_to_goal_ : bool;
  base_odom_ : Twist;
  global_plan_ : list PoseStamped;
  costmap_ : Costmap2D;
  tc_ : TrajectoryPlanner
}.

Definition set_rotating_to_goal_ (s : TrajectoryPlannerROS) (b : bool) :=
  {| params := params s; initialized_ := initialized_ s;
     rotating_to_goal_ := b; base_odom_ := base_odom_ s;
     global_plan_ := global_plan_ s; costmap_ := costmap_ s; tc_ := tc_ s |}.

Definition set_base_odom_ (s : TrajectoryPlannerROS) (t : Twist) :=
  {| params := params s; initialized_ := initialized_ s;
     rotating_to_goal_ := rotating_to_goal_ s; base_odom_ := t;
     global_plan_ := global_plan_ s; costmap_ := costmap_ s; tc_ := tc_ s |}.

Definition set_global_plan_ (s : TrajectoryPlannerROS) (p : list PoseStamped) :=
  {| params := params s; initialized_ := initialized_ s;
     rotating_to_goal_ := rotating_to_goal_ s; base_odom_ := base_odom_ s;
     global_plan_ := p; costmap_ := costmap_ s; tc_ := tc_ s |}.

Definition set_costmap_ (s : TrajectoryPlannerROS) (c : Costmap2D) :=
  {| params := params s; initialized_ := initialized_ s;
     rotating_to_goal_ := rotating_to_goal_ s; base_odom_ := base_odom_ s;
     global_plan_ := global_plan_ s; costmap_ := c; tc_ := tc_ s |}.

Definition set_tc_ (s : TrajectoryPlannerROS) (t : TrajectoryPlanner) :=
  {| params := params s; initialized_ := initialized_ s;
     rotating_to_goal_ := rotating_to_goal_ s; base_odom_ := base_odom_ s;
     global_plan_ := global_plan_ s; costmap_ := costmap_ s; tc_ := t |}.

(** [initialize], lines 63-171, for a call that passes its assertions:
    the [ROS_ASSERT_MSG] of line 156 on [world_model_type] and the
    assertions of [loadYVels], called at line 159, which stop the program
    otherwise.  [loadYVels] is modelled on its own, in [YVels]. *)
Definition initialize (s : TrajectoryPlannerROS) (ps : ParamServer) (env : Env)
  : TrajectoryPlannerROS :=
  if negb (initialized_ s) then
    {| params :=
         {| prune_plan_ := prune_plan ps;
            yaw_goal_tolerance_ := yaw_goal_tolerance ps;
            xy_goal_tolerance_ := xy_goal_tolerance ps;
            acc_lim_x_ := acc_lim_x ps;
            acc_lim_y_ := acc_lim_y ps;
            acc_lim_theta_ := acc_lim_th ps;
            max_vel_th_ := max_rotational_vel ps;
            min_vel_th_ := -1 * max_rotational_vel ps;
            min_in_place_vel_th_ := min_in_place_rotational_vel ps;
            rot_stopped_velocity_ := 1e-2;
            trans_stopped_velocity_ := 1e-2;
            global_frame_ := getGlobalFrameID env;
            robot_base_frame_ := getBaseFrameID env |};
       initialized_ := true;
       rotating_to_goal_ := false;
       base_odom_ := base_odom_ s;
       global_plan_ := global_plan_ s;
       costmap_ := getCostmapCopy env;
       tc_ := new_TrajectoryPlanner (getCostmapCopy env) ps |}
  else s.

(** [stopped], lines 212-217. *)
Definition stopped (s : TrajectoryPlannerROS) : bool :=
  Qle_bool (fabs (angular_z (base_odom_ s))) (rot_stopped_velocity_ (params s))
  && Qle_bool (fabs (linear_x (base_odom_ s))) (trans_stopped_velocity_ (params s))
  && Qle_bool (fabs (linear_y (base_odom_ s))) (trans_stopped_velocity_ (params s)).

(** [distance], lines 219-221. *)
Definition distance (x1 y1 x2 y2 : Q) : Q :=
  sqrt ((x2 - x1) * (x2 - x1) + (y2 - y1) * (y2 - y1)).

(** [goalPositionReached], lines 223-226. *)
Definition goalPositionReached (s : TrajectoryPlannerROS) (global_pose : Pose)
    (goal_x goal_y : Q) : bool :=
  let dist := distance (origin_x global_pose) (origin_y global_pose) goal_x goal_y in
  Qle_bool (fabs dist) (xy_goal_tolerance_ (params s)).

(** [goalOrientationReached], lines 228-231. *)
Definition goalOrientationReached (s : TrajectoryPlannerROS) (global_pose : Pose)
    (goal_th : Q) : bool :=
  let yaw := getYaw global_pose in
  Qle_bool (fabs (shortest_angular_distance yaw goal_th))
           (yaw_goal_tolerance_ (params s)).

(** [stopWithAccLimits], lines 233-260: the value returned and [cmd_vel]
    after the call. *)
Definition stopWithAccLimits (s : TrajectoryPlannerROS)
    (global_pose robot_vel : Pose) (cmd_vel : Twist) : bool * Twist :=
  let vx := sign (origin_x robot_vel)
            * std_max 0 (fabs (origin_x robot_vel) - acc_lim_x_ (params s) * 0.1) in
  let vy := sign (origin_y robot_vel)
            * std_max 0 (fabs (origin_y robot_vel) - acc_lim_y_ (params s) * 0.1) in
  let vel_yaw := getYaw robot_vel in
  let vth := sign vel_yaw
             * std_max 0 (fabs vel_yaw - acc_lim_theta_ (params s) * 0.1) in
  let yaw := getYaw global_pose in
  let valid_cmd :=
    checkTrajectory (tc_ s) (costmap_ s)
      (origin_x global_pose) (origin_y global_pose) yaw
      (origin_x robot_vel) (origin_y robot_vel) vel_yaw vx vy vth in
  if valid_cmd then
    (true, {| linear_x := vx; linear_y := vy; angular_z := vth |})
  else
    (false, {| linear_x := 0; linear_y := 0; angular_z := 0 |}).

(** [rotateToGoal], lines 262-298. *)
Definition rotateToGoal (s : TrajectoryPlannerROS)
    (global_pose robot_vel : Pose) (goal_th : Q) (cmd_vel : Twist)
  : bool * Twist :=
  let yaw := getYaw global_pose in
  let vel_yaw := getYaw robot_vel in
  let ang_diff := shortest_angular_distance yaw goal_th in
  let v_theta_samp :=
    if Qltb 0 ang_diff
    then std_min (max_vel_th_ (params s))
                 (std_max (min_in_place_vel_th_ (params s)) ang_diff)
    else std_max (min_vel_th_ (params s))
                 (std_min (-1 * min_in_place_vel_th_ (params s)) ang_diff) in
  let max_acc_vel := fabs vel_yaw + acc_lim_theta_ (params s) * 0.1 in
  let min_acc_vel := fabs vel_yaw - acc_lim_theta_ (params s) * 0.1 in
  let v_theta_samp :=
    sign v_theta_samp
    * std_min (std_max (fabs v_theta_samp) min_acc_vel) max_acc_vel in
  let max_speed_to_stop := sqrt (2 * acc_lim_theta_ (params s) * fabs ang_diff) in
  let v_theta_samp :=
    sign v_theta_samp * std_min max_speed_to_stop (fabs v_theta_samp) in
  let valid_cmd :=
    checkTrajectory (tc_ s) (costmap_ s)
      (origin_x global_pose) (origin_y global_pose) yaw
      (origin_x robot_vel) (origin_y robot_vel) vel_yaw 0 0 v_theta_samp in
  if valid_cmd then
    (true, {| linear_x := 0; linear_y := 0; angular_z := v_theta_samp |})
  else
    (false, {| linear_x := 0; linear_y := 0; angular_z := 0 |}).

(** [odomCallback], lines 300-308, as the control thread sees it once the
    callback has run to its end. *)
Definition odomCallback (s : TrajectoryPlannerROS) (msg : Twist)
  : TrajectoryPlannerROS :=
  set_base_odom_ s
    {| linear_x := linear_x msg;
       linear_y := linear_y msg;
       angular_z := angular_z msg |}.

(** [isGoalReached], lines 310-376. *)
Definition isGoalReached (s : TrajectoryPlannerROS) (env : Env) : Run bool :=
  if negb (initialized_ s) then mkRun false false
  else
    let plan_goal_pose := vec_back (global_plan_ s) in
    let oor := negb (is_some plan_goal_pose) in
    if Nat.ltb 0 (logical_not (List.length (global_plan_ s)))
    then mkRun false oor
    else
      match plan_goal_pose with
      | None => mkRun false oor
      | Some plan_goal_pose =>
        match lookupTransform env (global_frame_ (params s))
                (frame_id plan_goal_pose) (stamp plan_goal_pose) with
        | inr _ => mkRun false oor
        | inl transform =>
          let goal_pose := tr_apply transform (pose plan_goal_pose) in
          let goal_x := origin_x goal_pose in
          let goal_y := origin_y goal_pose in
          let yaw := getYaw goal_pose in
          let goal_th := yaw in
          match getRobotPose env with
          | None => mkRun false oor
          | Some global_pose =>
            if goalPositionReached s global_pose goal_x goal_y then
              if goalOrientationReached s global_pose goal_th then
                if stopped s then mkRun true oor else mkRun false oor
              else mkRun false oor
            else mkRun false oor
          end
        end
      end.

(** [setPlan], lines 378-389. *)
Definition setPlan (s : TrajectoryPlannerROS) (orig_global_plan : list PoseStamped)
  : bool * TrajectoryPlannerROS :=
  if negb (initialized_ s) then (false, s)
  else (true, set_global_plan_ s orig_global_plan).

(** The squared distance of lines 424-426, 435-437 and 633-635. *)
Definition sq_dist_to (robot_pose : Pose) (p : PoseStamped) : Q :=
  let x_diff := origin_x robot_pose - origin_x (pose p) in
  let y_diff := origin_y robot_pose - origin_y (pose p) in
  x_diff * x_diff + y_diff * y_diff.

(** Lines 439-444: a plan pose taken through [transform]. *)
Definition transform_pose (global_frame : string) (transform : StampedTransform)
    (p : PoseStamped) : PoseStamped :=
  {| frame_id := global_frame;
     stamp := tr_stamp transform;
     pose := tr_apply transform (pose p) |}.

(** The first loop of [transformGlobalPlan], lines 423-428.  [rest] is
    [global_plan_] from index [i] on; the result is what is left of it when
    the loop ends, and the last [sq_dist]. *)
Fixpoint skip_to_window (robot_pose : Pose) (sq_dist_threshold : Q)
    (rest : list PoseStamped) (sq_dist : Q) : list PoseStamped * Q :=
  match rest with
  | [] => ([], sq_dist)
  | p :: rest' =>
    if Qltb sq_dist_threshold sq_dist
    then skip_to_window robot_pose sq_dist_threshold rest' (sq_dist_to robot_pose p)
    else (rest, sq_dist)
  end.

(** The second loop, lines 434-449: the poses it pushes, in order. *)
Fixpoint transform_in_window (global_frame : string) (transform : StampedTransform)
    (robot_pose : Pose) (sq_dist_threshold : Q)
    (rest : list PoseStamped) (sq_dist : Q) : list PoseStamped :=
  match rest with
  | [] => []
  | p :: rest' =>
    if Qltb sq_dist sq_dist_threshold
    then transform_pose global_frame transform p
         :: transform_in_window global_frame transform robot_pose
              sq_dist_threshold rest' (sq_dist_to robot_pose p)
    else []
  end.

(** Line 416. *)
Definition dist_threshold (env : Env) : Q :=
  std_max (inject_Z (Z.of_N (getSizeInCellsX env)) * getResolution env / 2)
          (inject_Z (Z.of_N (getSizeInCellsY env)) * getResolution env / 2).

(** [transformGlobalPlan], lines 391-468: the value returned and
    [transformed_plan] after the call. *)
Definition transformGlobalPlan (s : TrajectoryPlannerROS) (env : Env)
  : Run (bool * list PoseStamped) :=
  let plan_pose := vec_at (global_plan_ s) 0 in
  let oor := negb (is_some plan_pose) in
  if Nat.ltb 0 (logical_not (List.length (global_plan_ s)))
  then mkRun (false, []) oor
  else
    match plan_pose with
    | None => mkRun (false, []) oor
    | Some plan_pose =>
      match lookupTransform env (global_frame_ (params s))
              (frame_id plan_pose) (stamp plan_pose) with
      | inr _ => mkRun (false, []) oor
      | inl transform =>
        match transformPose env (frame_id plan_pose) (getBaseFrameID env) with
        | inr _ => mkRun (false, []) oor
        | inl robot_pose =>
          let dist_threshold := dist_threshold env in
          let sq_dist_threshold := dist_threshold * dist_threshold in
          let '(rest, sq_dist) :=
            skip_to_window robot_pose sq_dist_threshold (global_plan_ s) DBL_MAX in
          mkRun (true,
                 transform_in_window (global_frame_ (params s)) transform
                   robot_pose sq_dist_threshold rest sq_dist)
                oor
        end
      end
    end.

(** The loop of [prunePlan], lines 630-642. *)
Fixpoint prune_loop (global_pose : Pose) (plan global_plan : list PoseStamped)
  : list PoseStamped * list PoseStamped :=
  match plan with
  | [] => (plan, global_plan)
  | w :: plan' =>
    let distance_sq := sq_dist_to global_pose w in
    if Qltb distance_sq 1 then (plan, global_plan)
    else prune_loop global_pose plan' (tl global_plan)
  end.

(** [prunePlan], lines 626-643: [plan] and [global_plan] after the call;
    [None] when [ROS_ASSERT] stops the program. *)
Definition prunePlan (global_pose : Pose) (plan global_plan : list PoseStamped)
  : option (list PoseStamped * list PoseStamped) :=
  if Nat.leb (List.length plan) (List.length global_plan)
  then Some (prune_loop global_pose plan global_plan)
  else None.

(** [publishPlan], lines 645-662: the messages handed to the publisher. *)
Definition publishPlan (s : TrajectoryPlannerROS) (path : list PoseStamped)
    (pub : Publisher) : list (Publisher * Path) :=
  match path with
  | [] => []
  | first :: _ =>
    [(pub, {| path_frame_id := global_frame_ (params s);
              path_stamp := stamp first;
              poses := path |})]
  end.

(** What one call of [computeVelocityCommands] leaves behind: the value
    returned, [cmd_vel], the planner object, the messages published, and
    whether [global_plan_] was indexed outside its range. *)
Record CycleResult := mkCycle {
  ret : bool;
  cmd_vel_out : Twist;
  planner : TrajectoryPlannerROS;
  published : list (Publisher * Path);
  index_out_of_range : bool
}.

(** Where the first part of [computeVelocityCommands], lines 471-534,
    leaves the call: it has returned [false], [ROS_ASSERT] has stopped the
    program, or it goes on to the goal test of line 537 with these
    values. *)
Inductive Front :=
| Front_return (s' : TrajectoryPlannerROS) (oor : bool)
| Front_abort
| Front_continue (s' : TrajectoryPlannerROS) (global_pose : Pose)
    (transformed_plan : list PoseStamped) (goal_point : PoseStamped)
    (robot_vel : Pose) (oor : bool).

(** Lines 471-534.  The plan has a last pose, [transformed_plan.back()],
    unless it is empty, the case in which line 524 returns. *)
Definition cycle_front (s : TrajectoryPlannerROS) (env : Env) : Front :=
  if negb (initialized_ s) then Front_return s false
  else
    match getRobotPose env with
    | None => Front_return s false
    | Some global_pose =>
      let t := transformGlobalPlan s env in
      let transformed_plan := snd (value t) in
      if negb (fst (value t)) then Front_return s (out_of_range t)
      else
        match
          (if prune_plan_ (params s)
           then prunePlan global_pose transformed_plan (global_plan_ s)
           else Some (transformed_plan, global_plan_ s))
        with
        | None => Front_abort
        | Some (transformed_plan, global_plan) =>
          let s := set_global_plan_ s global_plan in
          let s := set_costmap_ s (getCostmapCopy env) in
          let global_vel :=
            {| linear_x := linear_x (base_odom_ s);
               linear_y := linear_y (base_odom_ s);
               angular_z := angular_z (base_odom_ s) |} in
          let robot_vel :=
            {| origin_x := linear_x global_vel;
               origin_y := linear_y global_vel;
               getYaw := angular_z global_vel |} in
          match vec_back transformed_plan with
          | None => Front_return s (out_of_range t)
          | Some goal_point =>
            Front_continue s global_pose transformed_plan goal_point
              robot_vel (out_of_range t)
          end
        end
    end.

(** Lines 537-579: the robot is within the position tolerance of the
    goal. *)
Definition goal_branch (s : TrajectoryPlannerROS) (global_pose : Pose)
    (transformed_plan : list PoseStamped) (goal_th : Q) (robot_vel : Pose)
    (cmd_vel : Twist) (oor : bool) : CycleResult :=
  let local_plan : list PoseStamped := [] in
  let publish_and_return (s : TrajectoryPlannerROS) (cmd_vel : Twist) :=
    {| ret := true; cmd_vel_out := cmd_vel; planner := s;
       published := publishPlan s transformed_plan g_plan_pub_
                    ++ publishPlan s local_plan l_plan_pub_;
       index_out_of_range := oor |} in
  if goalOrientationReached s global_pose goal_th then
    publish_and_return (set_rotating_to_goal_ s false)
      {| linear_x := 0; linear_y := 0; angular_z := 0 |}
  else
    let tc := updatePlan (tc_ s) transformed_plan in
    let '(tc, path, drive_cmds) :=
      findBestPath tc (costmap_ s) global_pose robot_vel in
    let s := set_tc_ s tc in
    if negb (rotating_to_goal_ s) && negb (stopped s) then
      let '(ok, cmd_vel) := stopWithAccLimits s global_pose robot_vel cmd_vel in
      if negb ok then
        {| ret := false; cmd_vel_out := cmd_vel; planner := s;
           published := []; index_out_of_range := oor |}
      else publish_and_return s cmd_vel
    else
      let s := set_rotating_to_goal_ s true in
      let '(ok, cmd_vel) := rotateToGoal s global_pose robot_vel goal_th cmd_vel in
      if negb ok then
        {| ret := false; cmd_vel_out := cmd_vel; planner := s;
           published := []; index_out_of_range := oor |}
      else publish_and_return s cmd_vel.

(** Lines 581-623: the robot is not yet at the goal position. *)
Definition drive_branch (s : TrajectoryPlannerROS) (env : Env)
    (global_pose : Pose) (transformed_plan : list PoseStamped)
    (robot_vel : Pose) (oor : bool) : CycleResult :=
  let tc := updatePlan (tc_ s) transformed_plan in
  let '(tc, path, drive_cmds) :=
    findBestPath tc (costmap_ s) global_pose robot_vel in
  let s := set_tc_ s tc in
  let cmd_vel :=
    {| linear_x := origin_x drive_cmds;
       linear_y := origin_y drive_cmds;
       angular_z := getYaw drive_cmds |} in
  if Qltb (cost_ path) 0 then
    let local_plan : list PoseStamped := [] in
    {| ret := false; cmd_vel_out := cmd_vel; planner := s;
       published := publishPlan s transformed_plan g_plan_pub_
                    ++ publishPlan s local_plan l_plan_pub_;
       index_out_of_range := oor |}
  else
    let local_plan :=
      map (fun p : Q * Q * Q =>
             let '(p_x, p_y, p_th) := p in
             {| frame_id := global_frame_ (params s);
                stamp := now env;
                pose := {| origin_x := p_x; origin_y := p_y; getYaw := p_th |} |})
          (points path) in
    {| ret := true; cmd_vel_out := cmd_vel; planner := s;
       published := publishPlan s transformed_plan g_plan_pub_
                    ++ publishPlan s local_plan l_plan_pub_;
       index_out_of_range := oor |}.

(** [computeVelocityCommands], lines 470-624; [None] when [ROS_ASSERT]
    stops the program.  [cmd_vel] is the caller's object as it is on
    entry. *)
Definition computeVelocityCommands (s : TrajectoryPlannerROS) (env : Env)
    (cmd_vel : Twist) : option CycleResult :=
  match cycle_front s env with
  | Front_return s oor =>
    Some {| ret := false; cmd_vel_out := cmd_vel; planner := s;
            published := []; index_out_of_range := oor |}
  | Front_abort => None
  | Front_continue s global_pose transformed_plan goal_point robot_vel oor =>
    let goal_x := origin_x (pose goal_point) in
    let goal_y := origin_y (pose goal_point) in
    let yaw := getYaw (pose goal_point) in
    let goal_th := yaw in
    if goalPositionReached s global_pose goal_x goal_y
    then Some (goal_branch s global_pose transformed_plan goal_th robot_vel
                 cmd_vel oor)
    else Some (drive_branch s env global_pose transformed_plan robot_vel oor)
  end.

(** What the tests of lines 537 and 539 find, in a call that gets to
    them: is the robot within the position tolerance of the goal, and
    within the yaw tolerance. *)
Definition goal_tests (s : TrajectoryPlannerROS) (env : Env)
  : option (bool * bool) :=
  match cycle_front s env with
  | Front_continue s global_pose _ goal_point _ _ =>
    Some (goalPositionReached s global_pose
            (origin_x (pose goal_point)) (origin_y (pose goal_point)),
          goalOrientationReached s global_pose (getYaw (pose goal_point)))
  | _ => None
  end.

(** The first part of a cycle writes only the retained plan and the
    costmap copy. *)
Definition same_but_plan_and_costmap (s s' : TrajectoryPlannerROS) : Prop :=
  params s' = params s
  /\ initialized_ s' = initialized_ s
  /\ rotating_to_goal_ s' = rotating_to_goal_ s
  /\ base_odom_ s' = base_odom_ s
  /\ tc_ s' = tc_ s.

(** What a cycle does to the flag, by what its goal tests find. *)
Definition flag_after_cycle (s : TrajectoryPlannerROS) (env : Env) : bool :=
  match goal_tests s env with
  | Some (true, true) => false
  | Some (true, false) => rotating_to_goal_ s || stopped s
  | _ => rotating_to_goal_ s
  end.

(** The calls that change the planner object. *)
Inductive Call :=
| Initialize (ps : ParamServer) (env : Env)
| SetPlan (orig_global_plan : list PoseStamped)
| OdomCallback (msg : Twist)
| ComputeVelocityCommands (env : Env) (cmd_vel : Twist).

Definition call (s : TrajectoryPlannerROS) (c : Call)
  : option TrajectoryPlannerROS :=
  match c with
  | Initialize ps env => Some (initialize s ps env)
  | SetPlan plan => Some (snd (setPlan s plan))
  | OdomCallback msg => Some (odomCallback s msg)
  | ComputeVelocityCommands env cmd_vel =>
    option_map planner (computeVelocityCommands s env cmd_vel)
  end.

Fixpoint calls (s : TrajectoryPlannerROS) (cs : list Call)
  : option TrajectoryPlannerROS :=
  match cs with
  | [] => Some s
  | c :: cs' =>
    match call s c with
    | Some s' => calls s' cs'
    | None => None
    end
  end.

(** Does the cycle find the robot within the position tolerance of the
    goal? *)
Definition at_goal_position (s : TrajectoryPlannerROS) (env : Env) : bool :=
  match goal_tests s env with
  | Some (true, _) => true
  | _ => false
  end.

(** No cycle among the calls [cs], made from [s] on, finds the robot within
    the position tolerance of the goal. *)
Fixpoint away_from_goal (s : TrajectoryPlannerROS) (cs : list Call) : bool :=
  match cs with
  | [] => true
  | c :: cs' =>
    match c with
    | ComputeVelocityCommands env _ => negb (at_goal_position s env)
    | _ => true
    end
    && match call s c with
       | Some s' => away_from_goal s' cs'
       | None => true
       end
  end.

(** ** The terminal actions in the words of the specification *)

(** "new velocity = sign(v) * max(0, |v| - acc * 0.1)" *)
Definition spec_stop_velocity (v acc : Q) : Q :=
  sign v * std_max 0 (fabs v - acc * 0.1).

(** "clamp(ang_diff, min_in_place_vel, max_vel) with sign": a positive
    difference is clamped into [[lo, hi]], any other into [[-hi, -lo]]. *)
Definition spec_signed_clamp (lo hi a : Q) : Q :=
  if Qltb 0 a then std_min hi (std_max lo a)
  else std_max (-1 * hi) (std_min (-1 * lo) a).

(** "further clamp to [lo, hi]": the magnitude is clamped, the sign kept. *)
Definition spec_clamp_magnitude (lo hi v : Q) : Q :=
  sign v * std_min (std_max (fabs v) lo) hi.

(** "then cap by the max-speed-to-stop". *)
Definition spec_cap_magnitude (cap v : Q) : Q :=
  sign v * std_min cap (fabs v).

Definition spec_rotate_velocity (p : Params) (ang_diff vel_yaw : Q) : Q :=
  spec_cap_magnitude (sqrt (2 * acc_lim_theta_ p * fabs ang_diff))
    (spec_clamp_magnitude
       (fabs vel_yaw - acc_lim_theta_ p * 0.1)
       (fabs vel_yaw + acc_lim_theta_ p * 0.1)
       (spec_signed_clamp (min_in_place_vel_th_ p) (max_vel_th_ p) ang_diff)).

End Controller.

Arguments Front_abort {TrajectoryPlanner Costmap2D}.
Arguments SetPlan {Costmap2D}.
Arguments OdomCallback {Costmap2D}.

(** ** Scenarios

    A world to run the controller in: the planner behind [tc_] has no
    state, the costmap is either free ([true]) or blocked ([false]), every
    trajectory check follows the costmap, plan and costmap share one frame,
    and the costmap is 100 x 100 cells of 5 cm. *)
Module Scenarios.

(** The sign of the scenarios: -1 below zero, 1 from zero on. *)
Definition sign_of (v : Q) : Q := if Qltb v 0 then -1 else 1.

(** Exact on the squares of rationals, rounded down otherwise. *)
Definition sqrt_of (v : Q) : Q :=
  Qmake (Z.sqrt (Qnum v * Zpos (Qden v))) (Qden v).

#[export] Instance world : Collaborators unit bool :=
  {| sign := sign_of;
     sqrt := sqrt_of;
     shortest_angular_distance := fun from to => to - from;
     checkTrajectory := fun _ free _ _ _ _ _ _ _ _ _ => free;
     updatePlan := fun tc _ => tc;
     findBestPath := fun tc free _ _ =>
       if free : bool
       then (tc, {| cost_ := 0; points := [] |},
             {| origin_x := 0.3; origin_y := 0; getYaw := 0.1 |})
       else (tc, {| cost_ := -1; points := [] |},
             {| origin_x := -0.1; origin_y := 0; getYaw := 0 |});
     new_TrajectoryPlanner := fun _ _ => tt |}.

Definition identity_transform : StampedTransform :=
  {| tr_apply := fun p => p; tr_stamp := 0 |}.

(** The collaborators' answers with the robot at [robot]. *)
Definition env_at (robot : Pose) (free : bool) : Env bool :=
  {| getRobotPose := Some robot;
     getCostmapCopy := free;
     getGlobalFrameID := "odom";
     getBaseFrameID := "base_link";
     getSizeInCellsX := 100;
     getSizeInCellsY := 100;
     getResolution := 0.05;
     lookupTransform := fun _ _ _ => inl identity_transform;
     transformPose := fun _ _ => inl robot;
     now := 0 |}.

Definition waypoint (px py pth : Q) : PoseStamped :=
  {| frame_id := "odom"; stamp := 0;
     pose := {| origin_x := px; origin_y := py; getYaw := pth |} |}.

Definition zero_twist : Twist :=
  {| linear_x := 0; linear_y := 0; angular_z := 0 |}.

(** The object as the default constructor leaves it. *)
Definition constructed : TrajectoryPlannerROS unit bool :=
  {| params :=
       {| prune_plan_ := false; yaw_goal_tolerance_ := 0;
          xy_goal_tolerance_ := 0; acc_lim_x_ := 0; acc_lim_y_ := 0;
          acc_lim_theta_ := 0; max_vel_th_ := 0; min_vel_th_ := 0;
          min_in_place_vel_th_ := 0; rot_stopped_velocity_ := 0;
          trans_stopped_velocity_ := 0; global_frame_ := "";
          robot_base_frame_ := "" |};
     initialized_ := false;
     rotating_to_goal_ := false;
     base_odom_ := zero_twist;
     global_plan_ := [];
     costmap_ := true;
     tc_ := tt |}.

Definition origin : Pose := {| origin_x := 0; origin_y := 0; getYaw := 0 |}.

(** [initialize] with the default parameters. *)
Definition ready : TrajectoryPlannerROS unit bool :=
  initialize constructed default_ParamServer (env_at origin true).

(** A plan of two poses that ends 5 cm ahead of the origin, turned by one
    radian. *)
Definition short_plan : list PoseStamped :=
  [waypoint 0 0 0; waypoint 0.05 0 1].

(** The planner with [short_plan] set, the robot at the origin. *)
Definition at_goal : TrajectoryPlannerROS unit bool :=
  snd (setPlan ready short_plan).

(** [at_goal] after one cycle with the robot at the origin, at rest. *)
Definition rotating : TrajectoryPlannerROS unit bool :=
  match computeVelocityCommands at_goal (env_at origin true) zero_twist with
  | Some r => planner r
  | None => at_goal
  end.

(** Half a metre ahead of the origin. *)
Definition away : Pose := {| origin_x := 0.5; origin_y := 0; getYaw := 0 |}.

(** A plan that starts at the robot, leaves the window and comes back. *)
Definition winding_plan : list PoseStamped :=
  [waypoint 0 0 0; waypoint 1 0 0; waypoint 10 0 0; waypoint 0.5 0 0].

Definition winding : TrajectoryPlannerROS unit bool :=
  snd (setPlan ready winding_plan).

End Scenarios.

(** ** The odometry mutex

    The accesses to [base_odom_] and the operations on the mutex
    [odom_lock_], statement by statement, for the two threads that share
    the velocity: the transport thread that runs [odomCallback] and the
    control thread that runs [computeVelocityCommands]. *)
Module Odometry.

Inductive Field := Linear_x | Linear_y | Angular_z.

Inductive Instr :=
| Lock
    (** [odom_lock_.lock();] on the member *)
| Unlock
    (** [odom_lock_.unlock();] *)
| Scoped_lock_declaration
    (** [boost::recursive_mutex::scoped_lock(odom_lock_);] a statement
        that can be read as a declaration is one: it declares a local
        [scoped_lock] named [odom_lock_], bound to no mutex.  The member
        is neither locked nor unlocked. *)
| Read (f : Field)
| Write (f : Field) (v : Q).

(** [odomCallback], lines 302-305. *)
Definition odomCallback_code (msg : Twist) : list Instr :=
  [Scoped_lock_declaration;
   Write Linear_x (linear_x msg);
   Write Linear_y (linear_y msg);
   Write Angular_z (angular_z msg)].

(** [stopped], lines 213-216, in a call in which every test holds (a test
    that fails ends the call after its read). *)
Definition stopped_code : list Instr :=
  [Scoped_lock_declaration; Read Angular_z; Read Linear_x; Read Linear_y].

(** [computeVelocityCommands], lines 502-506. *)
Definition velocity_copy_code : list Instr :=
  [Lock; Read Linear_x; Read Linear_y; Read Angular_z; Unlock].

(** [computeVelocityCommands], lines 554-557. *)
Definition odom_copy_code : list Instr :=
  [Scoped_lock_declaration; Read Linear_x; Read Linear_y; Read Angular_z].

Inductive ThreadId := Transport | Control.

Definition same_thread (a b : ThreadId) : bool :=
  match a, b with
  | Transport, Transport | Control, Control => true
  | _, _ => false
  end.

(** The shared memory: the velocity of [base_odom_] and the recursive
    mutex, free or held by a thread a number of times over. *)
Record Shared := mkShared {
  odom : Twist;
  odom_lock_ : option (ThreadId * nat)
}.

Definition holds (m : Shared) (who : ThreadId) : bool :=
  match odom_lock_ m with
  | Some (owner, _) => same_thread owner who
  | None => false
  end.

Definition get (f : Field) (t : Twist) : Q :=
  match f with
  | Linear_x => linear_x t
  | Linear_y => linear_y t
  | Angular_z => angular_z t
  end.

Definition put (f : Field) (v : Q) (t : Twist) : Twist :=
  match f with
  | Linear_x => {| linear_x := v; linear_y := linear_y t; angular_z := angular_z t |}
  | Linear_y => {| linear_x := linear_x t; linear_y := v; angular_z := angular_z t |}
  | Angular_z => {| linear_x := linear_x t; linear_y := linear_y t; angular_z := v |}
  end.

(** One statement of thread [who]: the memory after it and the value it
    read, if any; [None] when the thread has to wait for the mutex.  The
    mutex is recursive: its owner may lock it again, and releases it with
    as many unlocks. *)
Definition exec (who : ThreadId) (i : Instr) (m : Shared)
  : option (Shared * list (Field * Q)) :=
  match i with
  | Lock =>
    match odom_lock_ m with
    | None => Some ({| odom := odom m; odom_lock_ := Some (who, 1%nat) |}, [])
    | Some (owner, n) =>
      if same_thread owner who
      then Some ({| odom := odom m; odom_lock_ := Some (who, S n) |}, [])
      else None
    end
  | Unlock =>
    match odom_lock_ m with
    | Some (owner, n) =>
      if same_thread owner who
      then match n with
           | S (S n') =>
             Some ({| odom := odom m; odom_lock_ := Some (owner, S n') |}, [])
           | _ => Some ({| odom := odom m; odom_lock_ := None |}, [])
           end
      else Some (m, [])
    | None => Some (m, [])
    end
  | Scoped_lock_declaration => Some (m, [])
  | Read f => Some (m, [(f, get f (odom m))])
  | Write f v => Some ({| odom := put f v (odom m); odom_lock_ := odom_lock_ m |}, [])
  end.

(** Does thread [who], running [code] with nobody interfering, hold the
    mutex at each of its reads and writes? *)
Fixpoint guarded (who : ThreadId) (code : list Instr) (m : Shared) : bool :=
  match code with
  | [] => true
  | i :: code' =>
    (match i with
     | Read _ | Write _ _ => holds m who
     | _ => true
     end)
    && match exec who i m with
       | Some (m', _) => guarded who code' m'
       | None => true
       end
  end.

(** The two threads and the memory between them. *)
Record Machine := mkMachine {
  shared : Shared;
  transport_code : list Instr;
  control_code : list Instr;
  control_reads : list (Field * Q)
}.

(** The scheduler lets [who] run one statement; a thread that has ended or
    waits for the mutex leaves the machine as it is. *)
Definition step (m : Machine) (who : ThreadId) : Machine :=
  match who with
  | Transport =>
    match transport_code m with
    | [] => m
    | i :: rest =>
      match exec Transport i (shared m) with
      | Some (sh, _) =>
        {| shared := sh; transport_code := rest;
           control_code := control_code m; control_reads := control_reads m |}
      | None => m
      end
    end
  | Control =>
    match control_code m with
    | [] => m
    | i :: rest =>
      match exec Control i (shared m) with
      | Some (sh, r) =>
        {| shared := sh; transport_code := transport_code m;
           control_code := rest; control_reads := control_reads m ++ r |}
      | None => m
      end
    end
  end.

Definition run (m : Machine) (schedule : list ThreadId) : Machine :=
  fold_left step schedule m.

(** The velocity triple the control thread has copied. *)
Definition copied (m : Machine) : list Q := map snd (control_reads m).

(** The odometry message arrives while the control thread copies the
    velocity. *)
Definition race (old msg : Twist) : Machine :=
  {| shared := {| odom := old; odom_lock_ := None |};
     transport_code := odomCallback_code msg;
     control_code := velocity_copy_code;
     control_reads := [] |}.

(** The callback in the words of the specification, "guarded by mutual
    exclusion": the writer holds the mutex over its three writes. *)
Definition spec_odomCallback_code (msg : Twist) : list Instr :=
  [Lock;
   Write Linear_x (linear_x msg);
   Write Linear_y (linear_y msg);
   Write Angular_z (angular_z msg);
   Unlock].

Definition spec_race (old msg : Twist) : Machine :=
  {| shared := {| odom := old; odom_lock_ := None |};
     transport_code := spec_odomCallback_code msg;
     control_code := velocity_copy_code;
     control_reads := [] |}.

(** The machines that [spec_race] can get to, by the number of statements
    each thread has run: the transport thread [i] of its five, the control
    thread [j] of its five, and [late] when the control thread took the
    mutex after the transport thread had released it. *)
Definition within (lo n hi : nat) : bool := Nat.leb lo n && Nat.leb n hi.

Definition config (old msg : Twist) (i j : nat) (late : bool) : Machine :=
  let written :=
    {| linear_x := if Nat.leb 2 i then linear_x msg else linear_x old;
       linear_y := if Nat.leb 3 i then linear_y msg else linear_y old;
       angular_z := if Nat.leb 4 i then angular_z msg else angular_z old |} in
  let source := if late then msg else old in
  {| shared :=
       {| odom := written;
          odom_lock_ :=
            if within 1 i 4 then Some (Transport, 1%nat)
            else if within 1 j 4 then Some (Control, 1%nat)
            else None |};
     transport_code := skipn i (spec_odomCallback_code msg);
     control_code := skipn j velocity_copy_code;
     control_reads :=
       firstn (j - 1)
         [(Linear_x, linear_x source); (Linear_y, linear_y source);
          (Angular_z, angular_z source)] |}.

(** The configurations in which at most one thread is between its lock
    and its unlock, and the control thread reads after all the writes or
    before them all. *)
Definition coherent (i j : nat) (late : bool) : bool :=
  Nat.leb i 5 && Nat.leb j 5
  && negb (within 1 i 4 && within 1 j 4)
  && (if Nat.eqb j 0 then negb late
      else if late then Nat.eqb i 5
      else if within 1 j 4 then Nat.eqb i 0 else true).

Definition next (i j : nat) (late : bool) (who : ThreadId) : nat * nat * bool :=
  match who with
  | Transport =>
    if Nat.eqb i 0 then (if within 1 j 4 then (i, j, late) else (1%nat, j, late))
    else if Nat.leb 5 i then (i, j, late) else (S i, j, late)
  | Control =>
    if Nat.eqb j 0
    then (if within 1 i 4 then (i, j, late) else (i, 1%nat, Nat.eqb i 5))
    else if Nat.leb 5 j then (i, j, late) else (i, S j, late)
  end.

End Odometry.

(** ** Start-up: the lateral velocities

    [loadYVels], lines 173-202, reads the parameter [y_vels] that
    [initialize] hands to the trajectory planner. *)
Module YVels.

(** An [XmlRpc::XmlRpcValue] by its type; the payload of the types that
    [loadYVels] rejects is left out. *)
#[warnings="-register-all"]
Inductive XmlRpcValue :=
| TypeInvalid
| TypeBoolean (b : bool)
| TypeInt (i : Z)
| TypeDouble (d : Q)
| TypeString (s : string)
| TypeDateTime
| TypeBase64
| TypeArray (a : list XmlRpcValue)
| TypeStruct.

(** The loop of lines 181-191 over [y_vel_list] from index [i] on;
    [y_vels] is the vector pushed so far, [None] when [ROS_ASSERT] stops
    the program. *)
Fixpoint load_loop (rest : list XmlRpcValue) (y_vels : list Q)
  : option (list Q) :=
  match rest with
  | [] => Some y_vels
  | vel :: rest' =>
    match vel with
    | TypeInt i => load_loop rest' (y_vels ++ [inject_Z i])
    | TypeDouble d => load_loop rest' (y_vels ++ [d])
    | _ => None
    end
  end.

(** [loadYVels]; [y_vel_list] is what [node.getParam("y_vels", ...)]
    finds, [None] when the parameter is not set. *)
Definition loadYVels (y_vel_list : option XmlRpcValue) : option (list Q) :=
  let y_vels : list Q := [] in
  match y_vel_list with
  | Some y_vel_list =>
    match y_vel_list with
    | TypeArray a => load_loop a y_vels
    | _ => None
    end
  | None => Some (y_vels ++ [-0.3] ++ [-0.1] ++ [0.1] ++ [0.3])
  end.

(** The number an entry stands for, when it is an int or a double. *)
Definition y_vel_of (vel : XmlRpcValue) : option Q :=
  match vel with
  | TypeInt i => Some (inject_Z i)
  | TypeDouble d => Some d
  | _ => None
  end.

End YVels.

(** ** Collaborators that fail *)
Module Faults.

Import Scenarios.

(** The costmap cannot tell where the robot is. *)
Definition env_without_pose : Env bool :=
  {| getRobotPose := None;
     getCostmapCopy := true;
     getGlobalFrameID := "odom";
     getBaseFrameID := "base_link";
     getSizeInCellsX := 100;
     getSizeInCellsY := 100;
     getResolution := 0.05;
     lookupTransform := fun _ _ _ => inl identity_transform;
     transformPose := fun _ _ => inl origin;
     now := 0 |}.

(** tf throws [e] at every lookup. *)
Definition env_without_transform (e : tf_exception) : Env bool :=
  {| getRobotPose := Some origin;
     getCostmapCopy := true;
     getGlobalFrameID := "odom";
     getBaseFrameID := "base_link";
     getSizeInCellsX := 100;
     getSizeInCellsY := 100;
     getResolution := 0.05;
     lookupTransform := fun _ _ _ => inr e;
     transformPose := fun _ _ => inr e;
     now := 0 |}.

(** A plan that is wholly out of the window of a robot at the origin. *)
Definition distant_plan : list PoseStamped :=
  [waypoint 10 0 0; waypoint 11 0 0; waypoint 12 0 0].

Definition distant : TrajectoryPlannerROS unit bool :=
  snd (setPlan ready distant_plan).

(** A plan of one pose, at the robot. *)
Definition single : TrajectoryPlannerROS unit bool :=
  snd (setPlan ready [waypoint 0 0 0]).

(** [at_goal] with the goal yaw reached: the robot stands at the origin,
    turned by one radian. *)
Definition turned : Pose := {| origin_x := 0; origin_y := 0; getYaw := 1 |}.

End Faults.

(** * Properties *)

(** ** Comparisons *)

Lemma Qltb_lt (a b : Q) : Qltb a b = true <-> a < b.
Proof.
  unfold Qltb. rewrite negb_true_iff.
  split; intro H.
  - apply Qnot_le_lt. intro Hle.
    apply Qle_bool_iff in Hle. congruence.
  - destruct (Qle_bool b a) eqn:E; [|reflexivity].
    apply Qle_bool_iff in E. exfalso. exact (Qlt_not_le _ _ H E).
Qed.

Lemma Qltb_ge (a b : Q) : Qltb a b = false <-> b <= a.
Proof.
  unfold Qltb. rewrite negb_false_iff. apply Qle_bool_iff.
Qed.

Lemma std_max_cases (a b : Q) :
  (a < b /\ std_max a b = b) \/ (b <= a /\ std_max a b = a).
Proof.
  unfold std_max. destruct (Qltb a b) eqn:E.
  - left. split; [apply Qltb_lt; exact E | reflexivity].
  - right. split; [apply Qltb_ge; exact E | reflexivity].
Qed.

Lemma std_min_cases (a b : Q) :
  (b < a /\ std_min a b = b) \/ (a <= b /\ std_min a b = a).
Proof.
  unfold std_min. destruct (Qltb b a) eqn:E.
  - left. split; [apply Qltb_lt; exact E | reflexivity].
  - right. split; [apply Qltb_ge; exact E | reflexivity].
Qed.

Section Facts.

Variables TrajectoryPlanner Costmap2D : Type.
Context {collab : Collaborators TrajectoryPlanner Costmap2D}.

Local Abbreviation Planner := (TrajectoryPlannerROS TrajectoryPlanner Costmap2D).
Local Abbreviation Environment := (Env Costmap2D).

(** ** Stopping and rotating at the goal *)

(** C6. [stopWithAccLimits] proposes, on each axis, the velocity
    sign(v) * max(0, |v| - acc * 0.1) and hands this command to the
    trajectory check; if the check accepts it the command is emitted and
    the call returns true, otherwise the command is zero on the three axes
    and the call returns false. *)
Theorem stopWithAccLimits_spec (s : Planner) (global_pose robot_vel : Pose)
    (cmd_vel : Twist) :
  let vx := spec_stop_velocity (origin_x robot_vel) (acc_lim_x_ (params s)) in
  let vy := spec_stop_velocity (origin_y robot_vel) (acc_lim_y_ (params s)) in
  let vth := spec_stop_velocity (getYaw robot_vel) (acc_lim_theta_ (params s)) in
  let valid :=
    checkTrajectory (tc_ s) (costmap_ s)
      (origin_x global_pose) (origin_y global_pose) (getYaw global_pose)
      (origin_x robot_vel) (origin_y robot_vel) (getYaw robot_vel)
      vx vy vth in
  stopWithAccLimits s global_pose robot_vel cmd_vel
  = if valid
    then (true, {| linear_x := vx; linear_y := vy; angular_z := vth |})
    else (false, {| linear_x := 0; linear_y := 0; angular_z := 0 |}).
Proof.
  unfold stopWithAccLimits, spec_stop_velocity. cbv zeta.
  destruct (checkTrajectory _ _ _ _ _ _ _ _ _ _ _); reflexivity.
Qed.

(** The magnitude that [spec_stop_velocity] attaches to the sign is the
    speed less one tenth of a second of braking, and never negative. *)
Lemma stop_speed_bounds (v acc : Q) :
  0 <= acc ->
  0 <= std_max 0 (fabs v - acc * 0.1) <= fabs v.
Proof.
  intro Hacc. unfold fabs.
  pose proof (Qabs_nonneg v) as Hv.
  destruct (std_max_cases 0 (Qabs v - acc * 0.1)) as [[H E]|[H E]];
    rewrite E; split; lra.
Qed.

(** [spec_signed_clamp] keeps a difference that is already within the
    bounds, on either side. *)
Lemma spec_signed_clamp_inside (lo hi a : Q) :
  lo <= Qabs a <= hi -> ~ a == 0 ->
  spec_signed_clamp lo hi a == a.
Proof.
  intros [Hlo Hhi] Hnz. unfold spec_signed_clamp.
  destruct (Qltb 0 a) eqn:E.
  - apply Qltb_lt in E.
    rewrite (Qabs_pos a) in Hlo, Hhi by lra.
    destruct (std_max_cases lo a) as [[H1 E1]|[H1 E1]]; rewrite E1;
      destruct (std_min_cases hi a) as [[H2 E2]|[H2 E2]];
      try (destruct (std_min_cases hi lo) as [[H3 E3]|[H3 E3]]; rewrite E3);
      try rewrite E2; lra.
  - apply Qltb_ge in E.
    rewrite (Qabs_neg a) in Hlo, Hhi by lra.
    destruct (std_min_cases (-1 * lo) a) as [[H1 E1]|[H1 E1]]; rewrite E1;
      destruct (std_max_cases (-1 * hi) a) as [[H2 E2]|[H2 E2]];
      try (destruct (std_max_cases (-1 * hi) (-1 * lo)) as [[H3 E3]|[H3 E3]];
           rewrite E3);
      try rewrite E2; lra.
Qed.

(** Its result lies within the bounds on the side of the difference. *)
Lemma spec_signed_clamp_bounds (lo hi a : Q) :
  0 <= lo <= hi ->
  (0 < a -> lo <= spec_signed_clamp lo hi a <= hi)
  /\ (a <= 0 -> - hi <= spec_signed_clamp lo hi a <= - lo).
Proof.
  intros [H0 Hlh]. unfold spec_signed_clamp. split; intro Ha.
  - apply Qltb_lt in Ha. rewrite Ha.
    destruct (std_max_cases lo a) as [[H1 E1]|[H1 E1]]; rewrite E1;
      match goal with |- _ <= std_min ?h ?v <= _ =>
        destruct (std_min_cases h v) as [[H2 E2]|[H2 E2]]; rewrite E2 end;
      split; lra.
  - apply Qltb_ge in Ha. rewrite Ha.
    destruct (std_min_cases (-1 * lo) a) as [[H1 E1]|[H1 E1]]; rewrite E1;
      match goal with |- _ <= std_max ?h ?v <= _ =>
        destruct (std_max_cases h v) as [[H2 E2]|[H2 E2]]; rewrite E2 end;
      split; lra.
Qed.

(** It is odd: the clamp of the opposite difference is the opposite
    clamp. *)
Lemma spec_signed_clamp_opp (lo hi a : Q) :
  ~ a == 0 ->
  spec_signed_clamp lo hi (- a) == - spec_signed_clamp lo hi a.
Proof.
  intro Hnz. unfold spec_signed_clamp.
  destruct (Qltb 0 a) eqn:Ea; destruct (Qltb 0 (- a)) eqn:Ena;
    try apply Qltb_lt in Ea; try apply Qltb_lt in Ena;
    try apply Qltb_ge in Ea; try apply Qltb_ge in Ena;
    try (exfalso; lra).
  - destruct (std_min_cases (-1 * lo) (- a)) as [[H1 E1]|[H1 E1]]; rewrite E1;
      destruct (std_max_cases lo a) as [[H2 E2]|[H2 E2]]; rewrite E2;
      try (exfalso; lra);
      match goal with |- std_max ?h ?v == - std_min ?k ?w =>
        destruct (std_max_cases h v) as [[H3 E3]|[H3 E3]]; rewrite E3;
        destruct (std_min_cases k w) as [[H4 E4]|[H4 E4]]; rewrite E4
      end; lra.
  - destruct (std_max_cases lo (- a)) as [[H1 E1]|[H1 E1]]; rewrite E1;
      destruct (std_min_cases (-1 * lo) a) as [[H2 E2]|[H2 E2]]; rewrite E2;
      try (exfalso; lra);
      match goal with |- std_min ?h ?v == - std_max ?k ?w =>
        destruct (std_min_cases h v) as [[H3 E3]|[H3 E3]]; rewrite E3;
        destruct (std_max_cases k w) as [[H4 E4]|[H4 E4]]; rewrite E4
      end; lra.
Qed.

(** [initialize] makes the lower bound of the angular velocity the
    opposite of the upper bound. *)
Lemma initialize_min_vel_th (s : Planner) (ps : ParamServer) (env : Environment) :
  initialized_ s = false ->
  min_vel_th_ (params (initialize s ps env))
  = -1 * max_vel_th_ (params (initialize s ps env)).
Proof.
  intro H. unfold initialize. rewrite H. reflexivity.
Qed.

(** C7. [rotateToGoal] emits no translation; its angular command is the
    angular difference clamped with its sign into
    [min_in_place_vel_th_, max_vel_th_], then clamped in magnitude into
    [|vel_yaw| - acc_lim_theta_ * 0.1, |vel_yaw| + acc_lim_theta_ * 0.1],
    then capped in magnitude by sqrt(2 * acc_lim_theta_ * |ang_diff|); it is
    checked as a trajectory without translation, and if the check fails
    the angular command is zero and the call returns false. *)
Theorem rotateToGoal_spec (s : Planner) (global_pose robot_vel : Pose)
    (goal_th : Q) (cmd_vel : Twist) :
  min_vel_th_ (params s) = -1 * max_vel_th_ (params s) ->
  let ang_diff := shortest_angular_distance (getYaw global_pose) goal_th in
  let v := spec_rotate_velocity (params s) ang_diff (getYaw robot_vel) in
  let valid :=
    checkTrajectory (tc_ s) (costmap_ s)
      (origin_x global_pose) (origin_y global_pose) (getYaw global_pose)
      (origin_x robot_vel) (origin_y robot_vel) (getYaw robot_vel)
      0 0 v in
  rotateToGoal s global_pose robot_vel goal_th cmd_vel
  = if valid
    then (true, {| linear_x := 0; linear_y := 0; angular_z := v |})
    else (false, {| linear_x := 0; linear_y := 0; angular_z := 0 |}).
Proof.
  intro Hmin.
  unfold rotateToGoal, spec_rotate_velocity, spec_cap_magnitude,
    spec_clamp_magnitude, spec_signed_clamp.
  cbv zeta. rewrite Hmin.
  destruct (checkTrajectory _ _ _ _ _ _ _ _ _ _ _); reflexivity.
Qed.

(** ** Pruning *)

Lemma prune_loop_spec (global_pose : Pose) (plan : list PoseStamped) :
  forall global_plan : list PoseStamped,
  exists k : nat,
    prune_loop global_pose plan global_plan = (skipn k plan, skipn k global_plan)
    /\ (k <= List.length plan)%nat
    /\ Forall (fun w => 1 <= sq_dist_to global_pose w) (firstn k plan)
    /\ (forall w, nth_error plan k = Some w -> sq_dist_to global_pose w < 1).
Proof.
  induction plan as [|w plan IH]; intro global_plan.
  - exists 0%nat. simpl. repeat split; auto.
    intros w H. discriminate.
  - simpl. destruct (Qltb (sq_dist_to global_pose w) 1) eqn:E.
    + exists 0%nat. simpl. repeat split; auto with arith.
      intros w' H. injection H as <-. apply Qltb_lt. exact E.
    + destruct (IH (tl global_plan)) as (k & Hk & Hle & Hfar & Hnear).
      exists (S k). rewrite Hk. simpl. repeat split.
      * destruct global_plan; simpl; [rewrite skipn_nil|]; reflexivity.
      * lia.
      * constructor; [apply Qltb_ge; exact E | exact Hfar].
      * exact Hnear.
Qed.

(** C3. When the retained plan is at least as long as the transformed
    plan, [prunePlan] erases the same number [k] of leading poses from
    both: the [k] erased poses of the transformed plan all have a squared
    distance to the robot of at least 1, the first pose kept, if there is
    one, has a squared distance below 1, and what is kept of either plan is
    the plan without its first [k] poses. *)
Theorem prunePlan_erases_far_prefix (global_pose : Pose)
    (plan global_plan : list PoseStamped) :
  (List.length plan <= List.length global_plan)%nat ->
  exists (k : nat) (plan' global_plan' : list PoseStamped),
    prunePlan global_pose plan global_plan = Some (plan', global_plan')
    /\ plan = firstn k plan ++ plan'
    /\ global_plan = firstn k global_plan ++ global_plan'
    /\ List.length (firstn k plan) = k
    /\ List.length (firstn k global_plan) = k
    /\ Forall (fun w => 1 <= sq_dist_to global_pose w) (firstn k plan)
    /\ (forall w, hd_error plan' = Some w -> sq_dist_to global_pose w < 1).
Proof.
  intro Hlen.
  destruct (prune_loop_spec global_pose plan global_plan)
    as (k & Hk & Hle & Hfar & Hnear).
  exists k, (skipn k plan), (skipn k global_plan).
  unfold prunePlan.
  apply Nat.leb_le in Hlen as Hlen'. rewrite Hlen', Hk.
  repeat split.
  - symmetry. apply firstn_skipn.
  - symmetry. apply firstn_skipn.
  - apply firstn_length_le. exact Hle.
  - apply firstn_length_le. lia.
  - exact Hfar.
  - intros w Hw. apply Hnear.
    rewrite <- Hw. clear.
    revert plan. induction k as [|k IH]; intros [|p plan]; simpl; auto.
Qed.

(** ** The window on the plan *)

Lemma skip_to_window_spec (robot_pose : Pose) (thr : Q) (rest : list PoseStamped) :
  forall (sq_dist : Q) (rest' : list PoseStamped) (sq_dist' : Q),
  skip_to_window robot_pose thr rest sq_dist = (rest', sq_dist') ->
  exists skipped : list PoseStamped,
    rest = skipped ++ rest'
    /\ Forall (fun p => thr < sq_dist_to robot_pose p) (removelast skipped)
    /\ (skipped <> [] -> thr < sq_dist).
Proof.
  induction rest as [|p rest IH]; intros sq_dist rest' sq_dist' H; simpl in H.
  - injection H as <- <-. exists []. repeat split; auto. congruence.
  - destruct (Qltb thr sq_dist) eqn:E.
    + apply IH in H. destruct H as (skipped & -> & Hfar & Hne).
      exists (p :: skipped). repeat split.
      * destruct skipped as [|q skipped]; [constructor|].
        change (removelast (p :: q :: skipped))
          with (p :: removelast (q :: skipped)).
        constructor; [apply Hne; discriminate | exact Hfar].
      * intros _. apply Qltb_lt. exact E.
    + injection H as <- <-. exists []. repeat split; auto. congruence.
Qed.

Lemma transform_in_window_spec (global_frame : string)
    (transform : StampedTransform) (robot_pose : Pose) (thr : Q)
    (rest : list PoseStamped) :
  forall sq_dist : Q,
  exists kept beyond : list PoseStamped,
    rest = kept ++ beyond
    /\ transform_in_window global_frame transform robot_pose thr rest sq_dist
       = map (transform_pose global_frame transform) kept
    /\ Forall (fun p => sq_dist_to robot_pose p < thr) (removelast kept)
    /\ (kept <> [] -> sq_dist < thr).
Proof.
  induction rest as [|p rest IH]; intro sq_dist; simpl.
  - exists [], []. repeat split; auto. congruence.
  - destruct (Qltb sq_dist thr) eqn:E.
    + destruct (IH (sq_dist_to robot_pose p)) as (kept & beyond & -> & Hmap & Hin & Hne).
      exists (p :: kept), beyond. repeat split.
      * simpl. rewrite Hmap. reflexivity.
      * destruct kept as [|q kept]; [constructor|].
        change (removelast (p :: q :: kept)) with (p :: removelast (q :: kept)).
        constructor; [apply Hne; discriminate | exact Hin].
      * intros _. apply Qltb_lt. exact E.
    + exists [], (p :: rest). repeat split; auto. congruence.
Qed.

(** The first loop, exactly: started outside the window, it either runs
    through poses that are all outside it, or stops behind the first pose
    [q] that is not, with the squared distance of [q]. *)
Lemma skip_to_window_exact (robot_pose : Pose) (thr : Q)
    (rest : list PoseStamped) :
  forall sq_dist : Q,
  thr < sq_dist ->
  (Forall (fun p => thr < sq_dist_to robot_pose p) rest
   /\ fst (skip_to_window robot_pose thr rest sq_dist) = [])
  \/ exists (outside : list PoseStamped) (q : PoseStamped)
            (rest' : list PoseStamped),
       rest = outside ++ q :: rest'
       /\ Forall (fun p => thr < sq_dist_to robot_pose p) outside
       /\ sq_dist_to robot_pose q <= thr
       /\ skip_to_window robot_pose thr rest sq_dist
          = (rest', sq_dist_to robot_pose q).
Proof.
  induction rest as [|p rest IH]; intros sq_dist Hsq.
  - left. split; [constructor | reflexivity].
  - simpl. apply Qltb_lt in Hsq. rewrite Hsq.
    destruct (Qltb thr (sq_dist_to robot_pose p)) eqn:E.
    + apply Qltb_lt in E.
      destruct (IH (sq_dist_to robot_pose p) E)
        as [[Hfar Hnil] | (outside & q & rest' & -> & Hfar & Hq & Hskip)].
      * left. split; [constructor; assumption | exact Hnil].
      * right. exists (p :: outside), q, rest'.
        repeat split; auto.
    + right. exists [], p, rest.
      repeat split; [constructor | apply Qltb_ge; exact E |].
      destruct rest as [|p' rest]; simpl; [reflexivity|].
      rewrite E. reflexivity.
Qed.

(** The second loop, exactly: [rest] is a run of poses strictly inside the
    window followed by poses of which the first is not; started strictly
    inside, the loop pushes the images of the run and then at most the
    image of the pose behind it. *)
Lemma transform_in_window_exact (global_frame : string)
    (transform : StampedTransform) (robot_pose : Pose) (thr : Q)
    (rest : list PoseStamped) :
  forall sq_dist : Q,
  exists (inside beyond tail : list PoseStamped),
    rest = inside ++ beyond
    /\ Forall (fun p => sq_dist_to robot_pose p < thr) inside
    /\ (forall p : PoseStamped,
          hd_error beyond = Some p -> thr <= sq_dist_to robot_pose p)
    /\ (tail = []
        \/ exists p : PoseStamped,
             hd_error beyond = Some p
             /\ tail = [transform_pose global_frame transform p])
    /\ (sq_dist < thr ->
        transform_in_window global_frame transform robot_pose thr rest sq_dist
        = map (transform_pose global_frame transform) inside ++ tail).
Proof.
  induction rest as [|p rest IH]; intro sq_dist.
  - exists [], [], []. repeat split; auto. intros p H. discriminate.
  - destruct (Qltb (sq_dist_to robot_pose p) thr) eqn:E.
    + destruct (IH (sq_dist_to robot_pose p))
        as (inside & beyond & tail & -> & Hin & Hbeyond & Htail & Hrun).
      apply Qltb_lt in E.
      exists (p :: inside), beyond, tail. repeat split; auto.
      intro Hsq. simpl. apply Qltb_lt in Hsq. rewrite Hsq.
      rewrite (Hrun E). reflexivity.
    + exists [], (p :: rest), [transform_pose global_frame transform p].
      repeat split; auto.
      * intros p' H. injection H as <-. apply Qltb_ge. exact E.
      * right. exists p. split; reflexivity.
      * intro Hsq. simpl. apply Qltb_lt in Hsq. rewrite Hsq.
        destruct rest as [|p' rest]; simpl; [reflexivity|].
        rewrite E. reflexivity.
Qed.

(** C4, amended. A successful [transformGlobalPlan], with a window smaller
    than the largest double, has looked up the transform and the pose of
    the robot in the frame of the plan, and either every pose of the
    retained plan lies outside the window and the transformed plan is
    empty, or the retained plan is [outside ++ q :: inside ++ beyond],
    where the poses of [outside] lie outside the window, [q] is the first
    pose that does not, [inside] is the whole run of poses behind [q] that
    lie strictly inside the window, and [beyond] starts with a pose that
    does not.  When [q] lies strictly inside the window, the transformed
    plan holds the images under the transform of all of [inside], in order
    and next to each other; before them comes at most the image of [q],
    behind them at most the image of the first pose of [beyond], and
    nothing else: no pose of [outside], and no pose of a later run
    through the window.  The window is compared in squares. *)
Theorem transformGlobalPlan_contiguous_run (s : Planner) (env : Environment)
    (transformed_plan : list PoseStamped) :
  value (transformGlobalPlan s env) = (true, transformed_plan) ->
  dist_threshold env * dist_threshold env < DBL_MAX ->
  exists (plan_pose : PoseStamped) (transform : StampedTransform)
         (robot_pose : Pose),
    hd_error (global_plan_ s) = Some plan_pose
    /\ lookupTransform env (global_frame_ (params s))
         (frame_id plan_pose) (stamp plan_pose) = inl transform
    /\ transformPose env (frame_id plan_pose) (getBaseFrameID env) = inl robot_pose
    /\ ((Forall (fun p => dist_threshold env * dist_threshold env
                          < sq_dist_to robot_pose p) (global_plan_ s)
         /\ transformed_plan = [])
        \/ exists (outside : list PoseStamped) (q : PoseStamped)
                  (inside beyond : list PoseStamped),
             global_plan_ s = outside ++ q :: inside ++ beyond
             /\ Forall (fun p => dist_threshold env * dist_threshold env
                                 < sq_dist_to robot_pose p) outside
             /\ sq_dist_to robot_pose q
                <= dist_threshold env * dist_threshold env
             /\ Forall (fun p => sq_dist_to robot_pose p
                                 < dist_threshold env * dist_threshold env)
                       inside
             /\ (forall p : PoseStamped,
                   hd_error beyond = Some p ->
                   dist_threshold env * dist_threshold env
                   <= sq_dist_to robot_pose p)
             /\ (sq_dist_to robot_pose q
                 < dist_threshold env * dist_threshold env ->
                 exists head tail : list PoseStamped,
                   transformed_plan
                   = head
                     ++ map (transform_pose (global_frame_ (params s)) transform)
                          inside
                     ++ tail
                   /\ (head = []
                       \/ head = [transform_pose (global_frame_ (params s))
                                    transform q])
                   /\ (tail = []
                       \/ exists p : PoseStamped,
                            hd_error beyond = Some p
                            /\ tail = [transform_pose (global_frame_ (params s))
                                         transform p]))).
Proof.
  unfold transformGlobalPlan, vec_at. intros H Hthr.
  destruct (global_plan_ s) as [|plan_pose plan] eqn:Eplan;
    cbn -[skip_to_window transform_in_window] in H; [discriminate|].
  destruct (lookupTransform env _ _ _) as [transform|] eqn:Etr;
    [|discriminate].
  destruct (transformPose env _ _) as [robot_pose|] eqn:Erp; [|discriminate].
  exists plan_pose, transform, robot_pose.
  split; [reflexivity|]. split; [exact Etr|]. split; [exact Erp|].
  destruct (@skip_to_window_exact robot_pose _ (plan_pose :: plan) _ Hthr)
    as [[Hfar Hnil] | (outside & q & rest' & Hsplit & Hfar & Hq & Hskip)].
  - left. split; [exact Hfar|].
    destruct (skip_to_window _ _ _ _) as [rest sq_dist].
    simpl in Hnil. subst rest. simpl in H. injection H as <-. reflexivity.
  - right. rewrite Hskip in H. cbn -[transform_in_window] in H.
    injection H as <-.
    destruct (@transform_in_window_exact (global_frame_ (params s)) transform
                robot_pose (dist_threshold env * dist_threshold env) rest'
                (sq_dist_to robot_pose q))
      as (inside & beyond & tail & -> & Hin & Hbeyond & Htail & Hrun).
    exists outside, q, inside, beyond.
    split; [exact Hsplit|]. split; [exact Hfar|]. split; [exact Hq|].
    split; [exact Hin|]. split; [exact Hbeyond|].
    intro Hlt. exists [], tail.
    split; [rewrite (Hrun Hlt); reflexivity|].
    split; [left; reflexivity | exact Htail].
Qed.

Lemma skip_to_window_length (robot_pose : Pose) (thr : Q)
    (rest : list PoseStamped) :
  forall sq_dist : Q,
  (List.length (fst (skip_to_window robot_pose thr rest sq_dist))
   <= List.length rest)%nat.
Proof.
  induction rest as [|p rest IH]; intro sq_dist; simpl; [lia|].
  destruct (Qltb thr sq_dist); simpl; [|lia].
  specialize (IH (sq_dist_to robot_pose p)). lia.
Qed.

Lemma transform_in_window_length (global_frame : string)
    (transform : StampedTransform) (robot_pose : Pose) (thr : Q)
    (rest : list PoseStamped) :
  forall sq_dist : Q,
  (List.length
     (transform_in_window global_frame transform robot_pose thr rest sq_dist)
   <= List.length rest)%nat.
Proof.
  induction rest as [|p rest IH]; intro sq_dist; simpl; [lia|].
  destruct (Qltb sq_dist thr); simpl; [|lia].
  specialize (IH (sq_dist_to robot_pose p)). lia.
Qed.

(** The transformed plan is never longer than the retained plan. *)
Lemma transformGlobalPlan_length (s : Planner) (env : Environment) :
  (List.length (snd (value (transformGlobalPlan s env)))
   <= List.length (global_plan_ s))%nat.
Proof.
  unfold transformGlobalPlan, vec_at.
  destruct (global_plan_ s) as [|plan_pose plan];
    cbn -[skip_to_window transform_in_window]; [lia|].
  destruct (lookupTransform env _ _ _) as [transform|];
    cbn -[skip_to_window transform_in_window]; [|lia].
  destruct (transformPose env _ _) as [robot_pose|];
    cbn -[skip_to_window transform_in_window]; [|lia].
  pose proof (skip_to_window_length robot_pose
                (dist_threshold env * dist_threshold env)
                (plan_pose :: plan) DBL_MAX) as Hskip.
  destruct (skip_to_window _ _ _ _) as [rest sq_dist].
  pose proof (transform_in_window_length (global_frame_ (params s)) transform
                robot_pose (dist_threshold env * dist_threshold env)
                rest sq_dist) as Hin.
  cbn -[transform_in_window] in *. lia.
Qed.

(** [ROS_ASSERT] never stops a cycle: [computeVelocityCommands] returns. *)
Lemma cycle_front_no_abort (s : Planner) (env : Environment) :
  cycle_front s env <> Front_abort.
Proof.
  unfold cycle_front.
  destruct (initialized_ s); simpl; [|discriminate].
  destruct (getRobotPose env) as [global_pose|]; [|discriminate].
  destruct (fst (value (transformGlobalPlan s env))); simpl; [|discriminate].
  pose proof (transformGlobalPlan_length s env) as Hlen.
  unfold prunePlan.
  apply Nat.leb_le in Hlen. rewrite Hlen.
  destruct (prune_plan_ (params s)).
  - destruct (prune_loop _ _ _) as [tp gp].
    destruct (vec_back tp); discriminate.
  - destruct (vec_back _); discriminate.
Qed.

Lemma computeVelocityCommands_returns (s : Planner) (env : Environment)
    (cmd_vel : Twist) :
  exists r, computeVelocityCommands s env cmd_vel = Some r.
Proof.
  unfold computeVelocityCommands.
  pose proof (cycle_front_no_abort s env) as H.
  destruct (cycle_front s env); [eauto | congruence |].
  destruct (goalPositionReached _ _ _ _); eauto.
Qed.

(** ** The cycle *)

Lemma cycle_front_frame (s : Planner) (env : Environment) :
  match cycle_front s env with
  | Front_return s' _ => same_but_plan_and_costmap s s'
  | Front_abort => True
  | Front_continue s' _ _ _ _ _ => same_but_plan_and_costmap s s'
  end.
Proof.
  unfold cycle_front, same_but_plan_and_costmap.
  destruct (initialized_ s) eqn:Ei; simpl; [|rewrite Ei; auto 6].
  destruct (getRobotPose env); [|rewrite Ei; auto 6].
  destruct (fst (value (transformGlobalPlan s env))); simpl;
    [|rewrite Ei; auto 6].
  destruct (if prune_plan_ (params s) then _ else _) as [[tp gp]|]; [|exact I].
  destruct (vec_back tp); simpl; auto 6.
Qed.

(** C2. A call of [computeVelocityCommands] with an empty retained plan
    returns false, leaves [cmd_vel] and the whole planner object as they
    were and publishes nothing.  When the call gets as far as
    [transformGlobalPlan] (the planner is initialised and the robot pose is
    known), that function evaluates [global_plan_[0]] on the empty vector
    before it tests the size. *)
Theorem empty_plan_cycle (s : Planner) (env : Environment) (cmd_vel : Twist) :
  global_plan_ s = [] ->
  computeVelocityCommands s env cmd_vel
  = Some {| ret := false; cmd_vel_out := cmd_vel; planner := s;
            published := [];
            index_out_of_range :=
              initialized_ s && is_some (getRobotPose env) |}.
Proof.
  intro Hplan.
  unfold computeVelocityCommands, cycle_front, transformGlobalPlan, vec_at.
  rewrite Hplan.
  destruct (initialized_ s); simpl; [|reflexivity].
  destruct (getRobotPose env); reflexivity.
Qed.

(** C8, amended. [isGoalReached] returns true exactly when the planner
    is initialised, the retained plan has a last pose, the transform of
    that pose into the global frame and the pose of the robot are
    available, and the robot is within [xy_goal_tolerance_] of the
    transformed pose, within [yaw_goal_tolerance_] of its yaw, and stopped:
    the three components of the last odometry velocity are within the
    stopped velocities.  The answer is computed at the call, from the
    retained plan, the pose of the robot and the last odometry; whether a
    cycle ran before, and what it returned, plays no part. *)
Theorem isGoalReached_true_iff (s : Planner) (env : Environment) :
  value (isGoalReached s env) = true
  <->
  initialized_ s = true
  /\ exists (plan_goal_pose : PoseStamped) (transform : StampedTransform)
            (global_pose : Pose),
       vec_back (global_plan_ s) = Some plan_goal_pose
       /\ lookupTransform env (global_frame_ (params s))
            (frame_id plan_goal_pose) (stamp plan_goal_pose) = inl transform
       /\ getRobotPose env = Some global_pose
       /\ let goal_pose := tr_apply transform (pose plan_goal_pose) in
          Qabs (distance (origin_x global_pose) (origin_y global_pose)
                  (origin_x goal_pose) (origin_y goal_pose))
          <= xy_goal_tolerance_ (params s)
          /\ Qabs (shortest_angular_distance (getYaw global_pose)
                     (getYaw goal_pose))
             <= yaw_goal_tolerance_ (params s)
          /\ (Qabs (angular_z (base_odom_ s)) <= rot_stopped_velocity_ (params s)
              /\ Qabs (linear_x (base_odom_ s)) <= trans_stopped_velocity_ (params s)
              /\ Qabs (linear_y (base_odom_ s)) <= trans_stopped_velocity_ (params s)).
Proof.
  unfold isGoalReached, goalPositionReached, goalOrientationReached, stopped,
    fabs.
  split.
  - intro H.
    destruct (initialized_ s); simpl in H; [|discriminate].
    split; [reflexivity|].
    destruct (Nat.ltb _ _); [discriminate|].
    destruct (vec_back (global_plan_ s)) as [pgp|]; [|discriminate].
    destruct (lookupTransform env _ _ _) as [transform|] eqn:Etr;
      [|discriminate].
    destruct (getRobotPose env) as [global_pose|]; [|discriminate].
    exists pgp, transform, global_pose.
    destruct (Qle_bool _ (xy_goal_tolerance_ _)) eqn:Exy; [|discriminate].
    destruct (Qle_bool _ (yaw_goal_tolerance_ _)) eqn:Eyaw; [|discriminate].
    destruct (_ && _) eqn:Estop; [|discriminate].
    apply andb_true_iff in Estop. destruct Estop as [Estop Ey].
    apply andb_true_iff in Estop. destruct Estop as [Ez Ex].
    repeat split; auto; try (apply Qle_bool_iff; assumption).
  - intros (Hi & pgp & transform & global_pose & Hback & Htr & Hpose
            & Hxy & Hyaw & Hz & Hx & Hy).
    rewrite Hi, Hback. simpl.
    assert (global_plan_ s <> []) as Hne.
    { intro E. rewrite E in Hback. discriminate. }
    destruct (global_plan_ s) as [|w plan]; [congruence|]. simpl.
    rewrite Htr, Hpose.
    apply Qle_bool_iff in Hxy, Hyaw, Hz, Hx, Hy.
    rewrite Hxy, Hyaw, Hz, Hx, Hy. reflexivity.
Qed.

(** C10. In a cycle that is not yet at the goal position and in which the
    best trajectory has a negative cost, [computeVelocityCommands] returns
    false and [cmd_vel] holds the velocities that [findBestPath] wrote
    into [drive_cmds]. *)
Theorem infeasible_cycle_keeps_drive_cmds (s : Planner) (env : Environment)
    (cmd_vel : Twist) (s1 : Planner) (global_pose : Pose)
    (transformed_plan : list PoseStamped) (goal_point : PoseStamped)
    (robot_vel : Pose) (oor : bool)
    (tc : TrajectoryPlanner) (path : Trajectory) (drive_cmds : Pose) :
  cycle_front s env
  = Front_continue s1 global_pose transformed_plan goal_point robot_vel oor ->
  goalPositionReached s1 global_pose
    (origin_x (pose goal_point)) (origin_y (pose goal_point)) = false ->
  findBestPath (updatePlan (tc_ s1) transformed_plan) (costmap_ s1)
    global_pose robot_vel = (tc, path, drive_cmds) ->
  cost_ path < 0 ->
  exists r : CycleResult TrajectoryPlanner Costmap2D,
    computeVelocityCommands s env cmd_vel = Some r
    /\ ret r = false
    /\ cmd_vel_out r
       = {| linear_x := origin_x drive_cmds;
            linear_y := origin_y drive_cmds;
            angular_z := getYaw drive_cmds |}.
Proof.
  intros Hfront Hpos Hbest Hcost.
  unfold computeVelocityCommands. rewrite Hfront, Hpos.
  unfold drive_branch. rewrite Hbest.
  apply Qltb_lt in Hcost. rewrite Hcost.
  eexists. repeat split.
Qed.

(** A cycle that gets to the goal test has a transformed plan with a
    first pose, and the parameters it started with. *)
Lemma front_continue_plan (s : Planner) (env : Environment) (s1 : Planner)
    (global_pose : Pose) (transformed_plan : list PoseStamped)
    (goal_point : PoseStamped) (robot_vel : Pose) (oor : bool) :
  cycle_front s env
  = Front_continue s1 global_pose transformed_plan goal_point robot_vel oor ->
  params s1 = params s
  /\ exists (first : PoseStamped) (rest : list PoseStamped),
       transformed_plan = first :: rest.
Proof.
  intro H. pose proof (cycle_front_frame s env) as Hframe.
  rewrite H in Hframe. destruct Hframe as (Hp & _).
  split; [exact Hp|].
  assert (vec_back transformed_plan = Some goal_point) as Hback.
  { revert H. unfold cycle_front.
    destruct (initialized_ s); simpl; [|discriminate].
    destruct (getRobotPose env); [|discriminate].
    destruct (fst (value _)); simpl; [|discriminate].
    destruct (if prune_plan_ (params s) then _ else _) as [[tp g]|];
      [|discriminate].
    destruct (vec_back tp) eqn:E; [|discriminate].
    intro H. injection H as <- <- <- <- <- <-. exact E. }
  destruct transformed_plan as [|first rest]; [discriminate|eauto].
Qed.

(** C1, amended. In a cycle that finds the robot within the position
    tolerance of the last transformed pose and outside the yaw tolerance,
    the command is that of [stopWithAccLimits] when the planner is not yet
    rotating and the robot not yet stopped, and that of [rotateToGoal]
    otherwise; the cycle returns what the action returns.  When the
    trajectory check of the action passed, it returns true after it has
    published the transformed plan on [g_plan_pub_], in the global frame
    and with the stamp of its first pose, and no local plan; when the
    check failed it returns false, with a zero command and nothing
    published. *)
Theorem goal_cycle_returns_action_result (s : Planner) (env : Environment)
    (cmd_vel : Twist) (s1 : Planner) (global_pose : Pose)
    (transformed_plan : list PoseStamped) (goal_point : PoseStamped)
    (robot_vel : Pose) (oor : bool) :
  cycle_front s env
  = Front_continue s1 global_pose transformed_plan goal_point robot_vel oor ->
  goalPositionReached s1 global_pose
    (origin_x (pose goal_point)) (origin_y (pose goal_point)) = true ->
  goalOrientationReached s1 global_pose (getYaw (pose goal_point)) = false ->
  exists r : CycleResult TrajectoryPlanner Costmap2D,
    computeVelocityCommands s env cmd_vel = Some r
    /\ (let s2 :=
          set_tc_ s1
            (fst (fst (findBestPath (updatePlan (tc_ s1) transformed_plan)
                         (costmap_ s1) global_pose robot_vel))) in
        (ret r, cmd_vel_out r)
        = if negb (rotating_to_goal_ s1) && negb (stopped s1)
          then stopWithAccLimits s2 global_pose robot_vel cmd_vel
          else rotateToGoal (set_rotating_to_goal_ s2 true) global_pose
                 robot_vel (getYaw (pose goal_point)) cmd_vel)
    /\ (ret r = true ->
        exists first : PoseStamped,
          hd_error transformed_plan = Some first
          /\ published r
             = [(g_plan_pub_,
                 {| path_frame_id := global_frame_ (params s);
                    path_stamp := stamp first;
                    poses := transformed_plan |})])
    /\ (ret r = false ->
        cmd_vel_out r = {| linear_x := 0; linear_y := 0; angular_z := 0 |}
        /\ published r = []).
Proof.
  intros Hfront Hpos Hyaw.
  destruct (front_continue_plan s env Hfront) as (Hp & first & rest & ->).
  unfold computeVelocityCommands. rewrite Hfront, Hpos.
  unfold goal_branch. rewrite Hyaw.
  destruct (findBestPath _ _ _ _) as [[tc path] drive_cmds]. simpl.
  change (stopped (set_tc_ s1 tc)) with (stopped s1).
  destruct (negb (rotating_to_goal_ s1) && negb (stopped s1)).
  - unfold stopWithAccLimits.
    destruct (checkTrajectory _ _ _ _ _ _ _ _ _ _ _); simpl;
      eexists; (split; [reflexivity|]); simpl; rewrite ?Hp;
      repeat split; try discriminate.
    intros _. exists first. split; reflexivity.
  - unfold rotateToGoal.
    destruct (checkTrajectory _ _ _ _ _ _ _ _ _ _ _); simpl;
      eexists; (split; [reflexivity|]); simpl; rewrite ?Hp;
      repeat split; try discriminate.
    intros _. exists first. split; reflexivity.
Qed.

(** ** The flag [rotating_to_goal_] *)

Lemma goal_branch_flag (s : Planner) (global_pose : Pose)
    (transformed_plan : list PoseStamped) (goal_th : Q) (robot_vel : Pose)
    (cmd_vel : Twist) (oor : bool) :
  let r := goal_branch s global_pose transformed_plan goal_th robot_vel
             cmd_vel oor in
  params (planner r) = params s
  /\ initialized_ (planner r) = initialized_ s
  /\ rotating_to_goal_ (planner r)
     = if goalOrientationReached s global_pose goal_th then false
       else rotating_to_goal_ s || stopped s.
Proof.
  unfold goal_branch.
  destruct (goalOrientationReached s global_pose goal_th);
    [repeat split; reflexivity|].
  destruct (findBestPath _ _ _ _) as [[tc path] drive_cmds]. simpl.
  change (stopped (set_tc_ s tc)) with (stopped s).
  destruct (rotating_to_goal_ s) eqn:Er; simpl.
  - destruct (rotateToGoal _ _ _ _ _) as [[|] cmd]; repeat split; reflexivity.
  - destruct (stopped s); simpl.
    + destruct (rotateToGoal _ _ _ _ _) as [[|] cmd]; repeat split; reflexivity.
    + destruct (stopWithAccLimits _ _ _ _) as [[|] cmd]; simpl;
        repeat split; auto.
Qed.

Lemma drive_branch_flag (s : Planner) (env : Environment) (global_pose : Pose)
    (transformed_plan : list PoseStamped) (robot_vel : Pose) (oor : bool) :
  let r := drive_branch s env global_pose transformed_plan robot_vel oor in
  params (planner r) = params s
  /\ initialized_ (planner r) = initialized_ s
  /\ rotating_to_goal_ (planner r) = rotating_to_goal_ s.
Proof.
  unfold drive_branch.
  destruct (findBestPath _ _ _ _) as [[tc path] drive_cmds].
  destruct (Qltb (cost_ path) 0); repeat split; reflexivity.
Qed.

(** A cycle returns, keeps the parameters and the initialisation, and
    leaves the flag as [flag_after_cycle] says. *)
Lemma cycle_flag (s : Planner) (env : Environment) (cmd_vel : Twist) :
  exists r : CycleResult TrajectoryPlanner Costmap2D,
    computeVelocityCommands s env cmd_vel = Some r
    /\ params (planner r) = params s
    /\ initialized_ (planner r) = initialized_ s
    /\ rotating_to_goal_ (planner r) = flag_after_cycle s env.
Proof.
  unfold computeVelocityCommands, flag_after_cycle, goal_tests.
  pose proof (cycle_front_no_abort s env) as Hno.
  pose proof (cycle_front_frame s env) as Hframe.
  destruct (cycle_front s env)
    as [s' oor| |s' global_pose tp goal_point robot_vel oor];
    [ | congruence | ].
  - destruct Hframe as (Hp & Hi & Hr & _). eexists. simpl. auto.
  - destruct Hframe as (Hp & Hi & Hr & Ho & _).
    assert (stopped s' = stopped s) as Hst.
    { unfold stopped. rewrite Ho, Hp. reflexivity. }
    destruct (goalPositionReached s' global_pose _ _).
    + eexists. split; [reflexivity|].
      destruct (goal_branch_flag s' global_pose tp (getYaw (pose goal_point))
                  robot_vel cmd_vel oor) as (Hp' & Hi' & Hr').
      rewrite Hp', Hi', Hr', Hp, Hi, Hr, Hst. repeat split; reflexivity.
    + eexists. split; [reflexivity|].
      destruct (drive_branch_flag s' env global_pose tp robot_vel oor)
        as (Hp' & Hi' & Hr').
      rewrite Hp', Hi', Hr', Hp, Hi, Hr.
      destruct (goalOrientationReached s' global_pose (getYaw (pose goal_point)));
        repeat split; reflexivity.
Qed.

Lemma calls_app (s : Planner) (cs1 cs2 : list (Call Costmap2D)) :
  calls s (cs1 ++ cs2)
  = match calls s cs1 with
    | Some s' => calls s' cs2
    | None => None
    end.
Proof.
  revert s. induction cs1 as [|c cs1 IH]; intro s; simpl; [reflexivity|].
  destruct (call s c); [apply IH | reflexivity].
Qed.

Lemma away_from_goal_app (s : Planner) (cs1 cs2 : list (Call Costmap2D)) :
  away_from_goal s (cs1 ++ cs2)
  = away_from_goal s cs1
    && match calls s cs1 with
       | Some s' => away_from_goal s' cs2
       | None => true
       end.
Proof.
  revert s. induction cs1 as [|c cs1 IH]; intro s; simpl; [reflexivity|].
  destruct (call s c) as [s'|].
  - rewrite IH, andb_assoc. reflexivity.
  - rewrite !andb_true_r. reflexivity.
Qed.

(** Every call keeps the bound that [initialize] sets on the angular
    velocity: in an initialised planner, however it was used,
    [min_vel_th_] is the opposite of [max_vel_th_]. *)
Lemma calls_min_vel_th (s0 : Planner) (cs : list (Call Costmap2D)) (s : Planner) :
  (initialized_ s0 = true ->
   min_vel_th_ (params s0) = -1 * max_vel_th_ (params s0)) ->
  calls s0 cs = Some s ->
  initialized_ s = true ->
  min_vel_th_ (params s) = -1 * max_vel_th_ (params s).
Proof.
  revert s0. induction cs as [|c cs IH]; intros s0 H0 Hcalls Hi; simpl in Hcalls.
  - injection Hcalls as <-. auto.
  - destruct (call s0 c) as [s1|] eqn:Ec; [|discriminate].
    apply (IH s1); auto. intro Hi1.
    destruct c as [ps env|plan|msg|env cmd_vel]; simpl in Ec.
    + injection Ec as <-.
      destruct (initialized_ s0) eqn:Ei0.
      * unfold initialize. rewrite Ei0. simpl. apply H0. reflexivity.
      * apply initialize_min_vel_th. exact Ei0.
    + injection Ec as <-. unfold setPlan in *.
      destruct (initialized_ s0) eqn:Ei0; simpl in *; auto; congruence.
    + injection Ec as <-. simpl in *. auto.
    + destruct (cycle_flag s0 env cmd_vel) as (r & Hrun & Hp & Hi' & _).
      rewrite Hrun in Ec. simpl in Ec. injection Ec as <-.
      rewrite Hp. apply H0. congruence.
Qed.

(** C5, amended. Let a planner object be constructed and then used
    through any sequence of calls.  If it is initialised and its flag
    [rotating_to_goal_] is true, then the most recent cycle that found the
    robot within the position tolerance of the goal found it outside the
    yaw tolerance.  And the next cycle returns, and leaves the flag false
    if it finds the robot within both tolerances; true, if the flag was
    true or the robot is stopped, and false otherwise, if it finds the
    robot within the position tolerance only; and as it was in every other
    case, also when it finds the robot outside the position tolerance. *)
Theorem rotating_to_goal_discipline (s0 : Planner)
    (cs : list (Call Costmap2D)) (s : Planner)
    (env : Environment) (cmd_vel : Twist) :
  initialized_ s0 = false ->
  calls s0 cs = Some s ->
  (initialized_ s = true -> rotating_to_goal_ s = true ->
   exists cs1 env1 cmd_vel1 cs2 s1 s2,
     cs = cs1 ++ ComputeVelocityCommands env1 cmd_vel1 :: cs2
     /\ calls s0 cs1 = Some s1
     /\ goal_tests s1 env1 = Some (true, false)
     /\ call s1 (ComputeVelocityCommands env1 cmd_vel1) = Some s2
     /\ away_from_goal s2 cs2 = true)
  /\ exists r : CycleResult TrajectoryPlanner Costmap2D,
       computeVelocityCommands s env cmd_vel = Some r
       /\ match goal_tests s env with
          | Some (true, true) => rotating_to_goal_ (planner r) = false
          | Some (true, false) =>
            rotating_to_goal_ (planner r) = rotating_to_goal_ s || stopped s
          | Some (false, _) | None =>
            rotating_to_goal_ (planner r) = rotating_to_goal_ s
          end.
Proof.
  intros Hnew Hcalls. split.
  - clear env cmd_vel. revert s Hcalls.
    induction cs as [|c cs IH] using rev_ind; intros s Hcalls Hi Hr.
    + simpl in Hcalls. injection Hcalls as <-. congruence.
    + rewrite calls_app in Hcalls.
      destruct (calls s0 cs) as [sp|] eqn:Esp; [|discriminate].
      simpl in Hcalls.
      destruct (call sp c) as [s'|] eqn:Ec; [|discriminate].
      injection Hcalls as ->.
      assert ((initialized_ sp = true /\ rotating_to_goal_ sp = true
               /\ away_from_goal sp [c] = true)
              \/ exists env1 cmd_vel1,
                   c = ComputeVelocityCommands env1 cmd_vel1
                   /\ goal_tests sp env1 = Some (true, false)) as Hcase.
      { destruct c as [ps env|plan|msg|env cmd_vel]; simpl in Ec.
        - injection Ec as <-. unfold initialize in Hi, Hr.
          destruct (initialized_ sp) eqn:Eisp; simpl in Hi, Hr;
            [left; auto | discriminate].
        - injection Ec as <-. unfold setPlan in Hi, Hr.
          destruct (initialized_ sp) eqn:Eisp; simpl in Hi, Hr;
            left; auto; congruence.
        - injection Ec as <-. left. auto.
        - destruct (cycle_flag sp env cmd_vel) as (r & Hrun & _ & Hi' & Hr').
          rewrite Hrun in Ec. simpl in Ec. injection Ec as <-.
          rewrite Hi' in Hi. rewrite Hr' in Hr. unfold flag_after_cycle in Hr.
          simpl. unfold at_goal_position. rewrite Hrun. simpl.
          destruct (goal_tests sp env) as [[[|] [|]]|] eqn:Eg;
            try discriminate; try (left; auto; fail).
          right. exists env, cmd_vel. auto. }
      destruct Hcase as [(Hisp & Hrsp & Haway)|(env1 & cmd_vel1 & -> & Hg)].
      * destruct (IH sp eq_refl Hisp Hrsp)
          as (cs1 & env1 & cmd_vel1 & cs2 & s1 & s2 & Hcs & Hs1 & Hg & Hs2 & Hq).
        exists cs1, env1, cmd_vel1, (cs2 ++ [c]), s1, s2.
        assert (calls s2 cs2 = Some sp) as Hs2p.
        { rewrite Hcs, calls_app, Hs1 in Esp. simpl in Esp.
          change (option_map _ _)
            with (call s1 (ComputeVelocityCommands env1 cmd_vel1)) in Esp.
          rewrite Hs2 in Esp. exact Esp. }
        repeat split; auto.
        -- rewrite Hcs, <- app_assoc. reflexivity.
        -- rewrite away_from_goal_app, Hq, Hs2p. exact Haway.
      * exists cs, env1, cmd_vel1, [], sp, s. auto.
  - destruct (cycle_flag s env cmd_vel) as (r & Hrun & _ & _ & Hr).
    exists r. split; [exact Hrun|].
    unfold flag_after_cycle in Hr.
    destruct (goal_tests s env) as [[[|] [|]]|]; exact Hr.
Qed.

End Facts.

(** ** The scenarios *)

Import Scenarios.

(** At the goal position, one radian off, at rest, the costmap free: the
    cycle returns true and turns at 0.32 rad/s. *)
Example rotate_at_goal :
  option_map (fun r => (ret r, Qeq_bool (angular_z (cmd_vel_out r)) 0.32))
    (computeVelocityCommands at_goal (env_at origin true) zero_twist)
  = Some (true, true).
Proof. vm_compute. reflexivity. Qed.

(** C1, as stated, fails: with the costmap blocked, the cycle that finds
    the robot at the goal position and one radian off the goal yaw returns
    false. *)
Lemma goal_cycle_returns_false :
  cycle_front at_goal (env_at origin false)
  = Front_continue (set_costmap_ at_goal false) origin
      [waypoint 0.05 0 1] (waypoint 0.05 0 1) origin false
  /\ goalPositionReached (set_costmap_ at_goal false) origin 0.05 0 = true
  /\ goalOrientationReached (set_costmap_ at_goal false) origin 1 = false
  /\ option_map (fun r => ret r)
       (computeVelocityCommands at_goal (env_at origin false) zero_twist)
     = Some false.
Proof. repeat split; vm_compute; reflexivity. Qed.

(** The cycle at the goal with the costmap free: it returns what
    [rotateToGoal] returns, true, and has published the transformed plan. *)
Lemma goal_cycle_returns_action_result_witness :
  exists r,
    computeVelocityCommands at_goal (env_at origin true) zero_twist = Some r
    /\ (ret r, cmd_vel_out r)
       = rotateToGoal
           (set_rotating_to_goal_ (set_costmap_ at_goal true) true)
           origin origin 1 zero_twist
    /\ (ret r = true ->
        exists first : PoseStamped,
          hd_error [waypoint 0.05 0 1] = Some first
          /\ published r
             = [(g_plan_pub_,
                 {| path_frame_id := global_frame_ (params at_goal);
                    path_stamp := stamp first;
                    poses := [waypoint 0.05 0 1] |})])
    /\ (ret r = false ->
        cmd_vel_out r = {| linear_x := 0; linear_y := 0; angular_z := 0 |}
        /\ published r = []).
Proof.
  refine (goal_cycle_returns_action_result at_goal (env_at origin true)
            zero_twist (s1 := set_costmap_ at_goal true)
            (global_pose := origin)
            (transformed_plan := [waypoint 0.05 0 1])
            (goal_point := waypoint 0.05 0 1)
            (robot_vel := origin) (oor := false) _ _ _);
    vm_compute; reflexivity.
Defined.

(** Before any plan is set. *)
Lemma empty_plan_cycle_witness :
  global_plan_ ready = []
  /\ computeVelocityCommands ready (env_at origin true) zero_twist
     = Some {| ret := false; cmd_vel_out := zero_twist; planner := ready;
               published := []; index_out_of_range := true |}.
Proof.
  split; [reflexivity|].
  exact (empty_plan_cycle ready (env_at origin true) zero_twist eq_refl).
Defined.

(** Scenario S5 of the specification: with an empty plan the cycle returns
    false and the goal is not reached. *)
Example empty_plan_scenario :
  option_map (fun r => ret r)
    (computeVelocityCommands ready (env_at origin true) zero_twist)
  = Some false
  /\ value (isGoalReached ready (env_at origin true)) = false.
Proof. split; reflexivity. Qed.

(** With a plan of one pose or more, no call indexes the retained plan out
    of its range. *)
Lemma transformGlobalPlan_in_range (TrajectoryPlanner Costmap2D : Type)
    (s : TrajectoryPlannerROS TrajectoryPlanner Costmap2D) (env : Env Costmap2D) :
  global_plan_ s <> [] ->
  out_of_range (transformGlobalPlan s env) = false.
Proof.
  intro Hne. unfold transformGlobalPlan, vec_at.
  destruct (global_plan_ s) as [|plan_pose plan]; [congruence|].
  cbn -[skip_to_window transform_in_window].
  destruct (lookupTransform env _ _ _); [|reflexivity].
  destruct (transformPose env _ _); [|reflexivity].
  destruct (skip_to_window _ _ _ _). reflexivity.
Qed.

(** A transformed plan whose first two poses are more than a metre away. *)
Lemma prunePlan_erases_far_prefix_witness :
  (List.length [waypoint 3 0 0; waypoint 2 0 0; waypoint 0.5 0 0; waypoint 4 0 0]
   <= List.length winding_plan)%nat
  /\ exists k plan' global_plan',
       prunePlan origin
         [waypoint 3 0 0; waypoint 2 0 0; waypoint 0.5 0 0; waypoint 4 0 0]
         winding_plan
       = Some (plan', global_plan')
       /\ [waypoint 3 0 0; waypoint 2 0 0; waypoint 0.5 0 0; waypoint 4 0 0]
          = firstn k [waypoint 3 0 0; waypoint 2 0 0; waypoint 0.5 0 0;
                      waypoint 4 0 0] ++ plan'
       /\ winding_plan = firstn k winding_plan ++ global_plan'
       /\ List.length
            (firstn k [waypoint 3 0 0; waypoint 2 0 0; waypoint 0.5 0 0;
                       waypoint 4 0 0]) = k
       /\ List.length (firstn k winding_plan) = k
       /\ Forall (fun w => 1 <= sq_dist_to origin w)
            (firstn k [waypoint 3 0 0; waypoint 2 0 0; waypoint 0.5 0 0;
                       waypoint 4 0 0])
       /\ (forall w, hd_error plan' = Some w -> sq_dist_to origin w < 1).
Proof.
  split; [simpl; lia|].
  apply prunePlan_erases_far_prefix. simpl. lia.
Defined.

(** The two far poses go, and with them the first two of the other plan. *)
Example prunePlan_example :
  prunePlan origin
    [waypoint 3 0 0; waypoint 2 0 0; waypoint 0.5 0 0; waypoint 4 0 0]
    winding_plan
  = Some ([waypoint 0.5 0 0; waypoint 4 0 0],
          [waypoint 10 0 0; waypoint 0.5 0 0]).
Proof. reflexivity. Qed.

(** C4, as stated, fails: with the robot at the origin and a window of
    2.5 m, [transformGlobalPlan] drops the first pose of [winding_plan],
    which lies at the robot, and the last, half a metre from it, and it
    keeps the third, ten metres away. *)
Lemma window_keeps_far_drops_near :
  value (transformGlobalPlan winding (env_at origin true))
  = (true, [waypoint 1 0 0; waypoint 10 0 0])
  /\ Qeq_bool (dist_threshold (env_at origin true)) 2.5 = true
  /\ (In (waypoint 0 0 0) (global_plan_ winding)
      /\ sq_dist_to origin (waypoint 0 0 0) < 2.5 * 2.5
      /\ ~ In (transform_pose "odom" identity_transform (waypoint 0 0 0))
             [waypoint 1 0 0; waypoint 10 0 0])
  /\ (In (waypoint 0.5 0 0) (global_plan_ winding)
      /\ sq_dist_to origin (waypoint 0.5 0 0) < 2.5 * 2.5
      /\ ~ In (transform_pose "odom" identity_transform (waypoint 0.5 0 0))
             [waypoint 1 0 0; waypoint 10 0 0])
  /\ (In (transform_pose "odom" identity_transform (waypoint 10 0 0))
         [waypoint 1 0 0; waypoint 10 0 0]
      /\ 2.5 * 2.5 < sq_dist_to origin (waypoint 10 0 0)).
Proof.
  split; [vm_compute; reflexivity|].
  split; [vm_compute; reflexivity|].
  repeat split.
  - left. reflexivity.
  - intros [H|[H|[]]]; discriminate H.
  - right. right. right. left. reflexivity.
  - intros [H|[H|[]]]; discriminate H.
  - right. left. reflexivity.
Qed.

(** On [winding_plan] the first pose is at the robot, the run behind it is
    the second pose, and the third pose, far outside the window, follows
    it into the transformed plan; the fourth, back inside, does not. *)
Lemma transformGlobalPlan_contiguous_run_witness :
  value (transformGlobalPlan winding (env_at origin true))
  = (true, [waypoint 1 0 0; waypoint 10 0 0])
  /\ dist_threshold (env_at origin true) * dist_threshold (env_at origin true)
     < DBL_MAX
  /\ exists plan_pose transform robot_pose,
       hd_error (global_plan_ winding) = Some plan_pose
       /\ lookupTransform (env_at origin true) (global_frame_ (params winding))
            (frame_id plan_pose) (stamp plan_pose) = inl transform
       /\ transformPose (env_at origin true) (frame_id plan_pose)
            (getBaseFrameID (env_at origin true)) = inl robot_pose
       /\ ((Forall (fun p => dist_threshold (env_at origin true)
                             * dist_threshold (env_at origin true)
                             < sq_dist_to robot_pose p) (global_plan_ winding)
            /\ [waypoint 1 0 0; waypoint 10 0 0] = [])
           \/ exists outside q inside beyond,
                global_plan_ winding = outside ++ q :: inside ++ beyond
                /\ Forall (fun p => dist_threshold (env_at origin true)
                                    * dist_threshold (env_at origin true)
                                    < sq_dist_to robot_pose p) outside
                /\ sq_dist_to robot_pose q
                   <= dist_threshold (env_at origin true)
                      * dist_threshold (env_at origin true)
                /\ Forall (fun p => sq_dist_to robot_pose p
                                    < dist_threshold (env_at origin true)
                                      * dist_threshold (env_at origin true))
                          inside
                /\ (forall p : PoseStamped,
                      hd_error beyond = Some p ->
                      dist_threshold (env_at origin true)
                      * dist_threshold (env_at origin true)
                      <= sq_dist_to robot_pose p)
                /\ (sq_dist_to robot_pose q
                    < dist_threshold (env_at origin true)
                      * dist_threshold (env_at origin true) ->
                    exists head tail : list PoseStamped,
                      [waypoint 1 0 0; waypoint 10 0 0]
                      = head
                        ++ map (transform_pose (global_frame_ (params winding))
                                  transform) inside
                        ++ tail
                      /\ (head = []
                          \/ head = [transform_pose
                                       (global_frame_ (params winding))
                                       transform q])
                      /\ (tail = []
                          \/ exists p : PoseStamped,
                               hd_error beyond = Some p
                               /\ tail = [transform_pose
                                            (global_frame_ (params winding))
                                            transform p]))).
Proof.
  assert (value (transformGlobalPlan winding (env_at origin true))
          = (true, [waypoint 1 0 0; waypoint 10 0 0])) as H
    by (vm_compute; reflexivity).
  assert (dist_threshold (env_at origin true)
          * dist_threshold (env_at origin true) < DBL_MAX) as Hthr
    by (vm_compute; reflexivity).
  split; [exact H|]. split; [exact Hthr|].
  exact (transformGlobalPlan_contiguous_run winding (env_at origin true) H Hthr).
Defined.

(** C5, as stated, fails: the cycle at the goal position sets the flag; the
    next cycle finds the robot half a metre away, outside the position
    tolerance, and leaves the flag true. *)
Lemma flag_true_outside_tolerance :
  calls constructed
    [Initialize default_ParamServer (env_at origin true);
     SetPlan short_plan;
     ComputeVelocityCommands (env_at origin true) zero_twist]
  = Some rotating
  /\ rotating_to_goal_ rotating = true
  /\ goal_tests rotating (env_at away true) = Some (false, false)
  /\ option_map (fun r => rotating_to_goal_ (planner r))
       (computeVelocityCommands rotating (env_at away true) zero_twist)
     = Some true.
Proof. repeat split; vm_compute; reflexivity. Qed.

(** The planner after a cycle at the goal position, one radian off. *)
Lemma rotating_to_goal_discipline_witness :
  initialized_ constructed = false
  /\ calls constructed
       [Initialize default_ParamServer (env_at origin true);
        SetPlan short_plan;
        ComputeVelocityCommands (env_at origin true) zero_twist]
     = Some rotating
  /\ (initialized_ rotating = true -> rotating_to_goal_ rotating = true ->
      exists cs1 env1 cmd_vel1 cs2 s1 s2,
        [Initialize default_ParamServer (env_at origin true);
         SetPlan short_plan;
         ComputeVelocityCommands (env_at origin true) zero_twist]
        = cs1 ++ ComputeVelocityCommands env1 cmd_vel1 :: cs2
        /\ calls constructed cs1 = Some s1
        /\ goal_tests s1 env1 = Some (true, false)
        /\ call s1 (ComputeVelocityCommands env1 cmd_vel1) = Some s2
        /\ away_from_goal s2 cs2 = true)
  /\ exists r,
       computeVelocityCommands rotating (env_at away true) zero_twist = Some r
       /\ rotating_to_goal_ (planner r) = rotating_to_goal_ rotating.
Proof.
  assert (calls constructed
            [Initialize default_ParamServer (env_at origin true);
             SetPlan short_plan;
             ComputeVelocityCommands (env_at origin true) zero_twist]
          = Some rotating) as H by (vm_compute; reflexivity).
  split; [reflexivity|]. split; [exact H|].
  exact (rotating_to_goal_discipline constructed _ (env_at away true)
           zero_twist eq_refl H).
Defined.

(** At rest at the origin, one radian off the goal yaw. *)
Lemma rotateToGoal_spec_witness :
  min_vel_th_ (params ready) = -1 * max_vel_th_ (params ready)
  /\ rotateToGoal ready origin origin 1 zero_twist
     = (true, {| linear_x := 0; linear_y := 0;
                 angular_z := spec_rotate_velocity (params ready) (1 - 0) 0 |}).
Proof.
  split; [reflexivity|].
  exact (rotateToGoal_spec ready origin origin 1 zero_twist eq_refl).
Defined.

(** Scenario S2 of the specification: at rest and one radian off, the
    acceleration limit decides; the command is 0.32 rad/s. *)
Example rotate_velocity_at_rest :
  spec_rotate_velocity (params ready) 1 0 == 0.32.
Proof. vm_compute. reflexivity. Qed.

(** [isGoalReached] does not ask what the cycles did.  After [initialize]
    and [setPlan] with a plan of one pose, at the robot, no cycle has run:
    [isGoalReached] returns true.  A cycle in that state does not succeed
    either: the first loop of [transformGlobalPlan] uses up the one pose,
    the transformed plan is empty, and the cycle returns false without a
    command. *)
Lemma goal_reached_without_cycle :
  calls constructed
    [Initialize default_ParamServer (env_at origin true);
     SetPlan [waypoint 0 0 0]]
  = Some Faults.single
  /\ value (isGoalReached Faults.single (env_at origin true)) = true
  /\ option_map (fun r => (ret r, cmd_vel_out r, published r))
       (computeVelocityCommands Faults.single (env_at origin true) zero_twist)
     = Some (false, zero_twist, []).
Proof. repeat split; vm_compute; reflexivity. Qed.

(** The other way round: the cycle at the goal, turned and at rest,
    returns true with a zero command; asked with the robot half a metre
    away afterwards, [isGoalReached] returns false. *)
Example goal_not_reached_after_final_cycle :
  option_map (fun r => (ret r, cmd_vel_out r))
    (computeVelocityCommands at_goal (env_at Faults.turned true) zero_twist)
  = Some (true, zero_twist)
  /\ option_map (fun r => value (isGoalReached (planner r)
                                   (env_at Faults.turned true)))
       (computeVelocityCommands at_goal (env_at Faults.turned true) zero_twist)
     = Some true
  /\ option_map (fun r => value (isGoalReached (planner r) (env_at away true)))
       (computeVelocityCommands at_goal (env_at Faults.turned true) zero_twist)
     = Some false.
Proof. repeat split; vm_compute; reflexivity. Qed.

(** Half a metre from the goal with the costmap blocked: the cycle returns
    false and the command is the backup velocity of the scenarios. *)
Lemma infeasible_cycle_keeps_drive_cmds_witness :
  exists r,
    computeVelocityCommands at_goal (env_at away false) zero_twist = Some r
    /\ ret r = false
    /\ cmd_vel_out r = {| linear_x := -0.1; linear_y := 0; angular_z := 0 |}.
Proof.
  refine (infeasible_cycle_keeps_drive_cmds at_goal (env_at away false)
            zero_twist (s1 := set_costmap_ at_goal false)
            (global_pose := away)
            (transformed_plan := [waypoint 0.05 0 1])
            (goal_point := waypoint 0.05 0 1)
            (robot_vel := origin) (oor := false)
            (tc := tt) (path := {| cost_ := -1; points := [] |})
            (drive_cmds := {| origin_x := -0.1; origin_y := 0; getYaw := 0 |})
            _ _ _ _);
    vm_compute; reflexivity.
Defined.

(** ** The odometry mutex *)

Import Odometry.

(** The one place that takes the mutex holds it over its three reads. *)
Lemma velocity_copy_guarded (old : Twist) :
  guarded Control velocity_copy_code {| odom := old; odom_lock_ := None |} = true.
Proof. reflexivity. Qed.

(** Run alone, the statements of the callback leave the velocity that
    [odomCallback] computes. *)
Lemma odomCallback_code_runs (TrajectoryPlanner Costmap2D : Type)
    (s : TrajectoryPlannerROS TrajectoryPlanner Costmap2D) (msg : Twist) :
  odom (shared
          (run {| shared := {| odom := base_odom_ s; odom_lock_ := None |};
                  transport_code := odomCallback_code msg;
                  control_code := [];
                  control_reads := [] |}
               [Transport; Transport; Transport; Transport]))
  = base_odom_ (odomCallback s msg).
Proof. reflexivity. Qed.

(** C9. The accesses to the odometry velocity in [odomCallback], in
    [stopped] and in the copy of lines 554-557 are made without holding
    [odom_lock_].  When an odometry message arrives after the control
    thread has locked the mutex and read the first component, the control
    thread copies the old x velocity together with the new y and angular
    velocities. *)
Theorem odometry_velocity_race (old msg : Twist) :
  guarded Transport (odomCallback_code msg)
    {| odom := old; odom_lock_ := None |} = false
  /\ guarded Control stopped_code {| odom := old; odom_lock_ := None |} = false
  /\ guarded Control odom_copy_code {| odom := old; odom_lock_ := None |} = false
  /\ copied (run (race old msg)
               [Control; Control;
                Transport; Transport; Transport; Transport;
                Control; Control; Control])
     = [linear_x old; linear_y msg; angular_z msg].
Proof. repeat split. Qed.

(** With the robot slowing from (0.5, 0.1, 0.2) to rest, the control thread
    can copy (0.5, 0, 0), a velocity the odometry never reported. *)
Example torn_velocity :
  copied (run (race {| linear_x := 0.5; linear_y := 0.1; angular_z := 0.2 |}
                    zero_twist)
              [Control; Control;
               Transport; Transport; Transport; Transport;
               Control; Control; Control])
  = [0.5; 0; 0].
Proof. reflexivity. Qed.

(** *** The writer of the specification

    Were the three writes made under the mutex, as the specification has
    them, no schedule would let the control thread copy a mixed triple. *)

Lemma step_config (old msg : Twist) (i j : nat) (late : bool) (who : ThreadId) :
  coherent i j late = true ->
  step (config old msg i j late) who
  = (let '(i', j', late') := next i j late who in config old msg i' j' late')
  /\ (let '(i', j', late') := next i j late who in coherent i' j' late') = true.
Proof.
  intro H.
  do 6 (try destruct i as [|i]); try discriminate H;
    do 6 (try destruct j as [|j]); try discriminate H;
    destruct late; try discriminate H;
    destruct who; split; reflexivity.
Qed.

Lemma run_config (old msg : Twist) (schedule : list ThreadId) :
  forall (i j : nat) (late : bool),
  coherent i j late = true ->
  exists (i' j' : nat) (late' : bool),
    run (config old msg i j late) schedule = config old msg i' j' late'
    /\ coherent i' j' late' = true.
Proof.
  unfold run.
  induction schedule as [|who schedule IH]; intros i j late H; simpl.
  - exists i, j, late. auto.
  - destruct (step_config old msg i j late who H) as [Hstep Hnext].
    rewrite Hstep.
    destruct (next i j late who) as [[i' j'] late'].
    apply IH. exact Hnext.
Qed.

Theorem spec_writer_never_torn (old msg : Twist) (schedule : list ThreadId) :
  control_code (run (spec_race old msg) schedule) = [] ->
  copied (run (spec_race old msg) schedule)
  = [linear_x old; linear_y old; angular_z old]
  \/ copied (run (spec_race old msg) schedule)
     = [linear_x msg; linear_y msg; angular_z msg].
Proof.
  assert (spec_race old msg = config old msg 0 0 false) as ->
    by (destruct old; reflexivity).
  destruct (run_config old msg schedule 0 0 false eq_refl)
    as (i & j & late & -> & H).
  intro Hend.
  do 6 (try destruct j as [|j]); try discriminate Hend;
    [|destruct i as [|[|[|[|[|[|i]]]]]]; discriminate H].
  destruct late; [right | left]; reflexivity.
Qed.

(** Under the schedule of the race the transport thread waits for the
    mutex, and the control thread copies the old velocity. *)
Example spec_writer_waits :
  copied (run (spec_race {| linear_x := 0.5; linear_y := 0.1; angular_z := 0.2 |}
                         zero_twist)
              [Control; Control;
               Transport; Transport; Transport; Transport;
               Control; Control; Control])
  = [0.5; 0.1; 0.2].
Proof. reflexivity. Qed.

(** * Further properties of the controller *)

Section Calls.

Variables TrajectoryPlanner Costmap2D : Type.
Context {collab : Collaborators TrajectoryPlanner Costmap2D}.

Local Abbreviation Planner := (TrajectoryPlannerROS TrajectoryPlanner Costmap2D).
Local Abbreviation Environment := (Env Costmap2D).
Local Abbreviation Result := (CycleResult TrajectoryPlanner Costmap2D).

(** ** Initialisation *)

(** X1. [initialize] acts once: called again, with whatever parameters
    and collaborators, it leaves the planner as the first call made it. *)
Theorem initialize_once (s : Planner) (ps ps' : ParamServer)
    (env env' : Environment) :
  initialize (initialize s ps env) ps' env' = initialize s ps env.
Proof.
  unfold initialize at 1.
  assert (initialized_ (initialize s ps env) = true) as ->; [|reflexivity].
  unfold initialize. destruct (initialized_ s) eqn:E; simpl; auto.
Qed.

(** X2. Before [initialize], the three entry points refuse: [setPlan]
    returns false and keeps the old plan, [computeVelocityCommands] returns
    false without touching [cmd_vel], the planner or the publishers, and
    [isGoalReached] returns false. *)
Theorem uninitialized_calls_refuse (s : Planner) (env : Environment)
    (plan : list PoseStamped) (cmd_vel : Twist) :
  initialized_ s = false ->
  setPlan s plan = (false, s)
  /\ computeVelocityCommands s env cmd_vel
     = Some {| ret := false; cmd_vel_out := cmd_vel; planner := s;
               published := []; index_out_of_range := false |}
  /\ isGoalReached s env = mkRun false false.
Proof.
  intro H.
  unfold setPlan, computeVelocityCommands, cycle_front, isGoalReached.
  rewrite H. simpl. auto.
Qed.

(** X3. When the costmap cannot give the pose of the robot, a cycle
    returns false and leaves [cmd_vel], the planner and the publishers
    alone, and [isGoalReached] returns false. *)
Theorem no_robot_pose_no_command (s : Planner) (env : Environment)
    (cmd_vel : Twist) :
  getRobotPose env = None ->
  computeVelocityCommands s env cmd_vel
  = Some {| ret := false; cmd_vel_out := cmd_vel; planner := s;
            published := []; index_out_of_range := false |}
  /\ value (isGoalReached s env) = false.
Proof.
  intro H.
  unfold computeVelocityCommands, cycle_front, isGoalReached.
  rewrite H.
  destruct (initialized_ s); simpl; split; auto.
  destruct (Nat.ltb _ _); [reflexivity|].
  destruct (vec_back _); [|reflexivity].
  destruct (lookupTransform _ _ _ _); reflexivity.
Qed.

(** X4. When tf throws at the lookup of the transform of the plan, or at
    the pose of the robot in the frame of the plan, whichever of the three
    exceptions it is, [transformGlobalPlan] returns false with an empty
    plan, and the cycle returns false and leaves [cmd_vel], the planner,
    its plan included, and the publishers alone. *)
Theorem no_transform_no_command (s : Planner) (env : Environment)
    (cmd_vel : Twist) (plan_pose : PoseStamped) (e : tf_exception) :
  hd_error (global_plan_ s) = Some plan_pose ->
  lookupTransform env (global_frame_ (params s))
    (frame_id plan_pose) (stamp plan_pose) = inr e
  \/ transformPose env (frame_id plan_pose) (getBaseFrameID env) = inr e ->
  value (transformGlobalPlan s env) = (false, [])
  /\ computeVelocityCommands s env cmd_vel
     = Some {| ret := false; cmd_vel_out := cmd_vel; planner := s;
               published := []; index_out_of_range := false |}.
Proof.
  intros Hhd Hthrow.
  assert (transformGlobalPlan s env = mkRun (false, []) false) as Ht.
  { unfold transformGlobalPlan, vec_at.
    destruct (global_plan_ s) as [|w plan]; [discriminate|].
    injection Hhd as ->.
    cbn -[skip_to_window transform_in_window].
    destruct Hthrow as [H|H].
    - rewrite H. reflexivity.
    - destruct (lookupTransform _ _ _ _); [rewrite H|]; reflexivity. }
  split; [rewrite Ht; reflexivity|].
  unfold computeVelocityCommands, cycle_front. rewrite Ht.
  destruct (initialized_ s); simpl; [|reflexivity].
  destruct (getRobotPose env); reflexivity.
Qed.

(** ** The window, at its edges *)

(** What a successful [transformGlobalPlan] has done: both tf calls
    succeeded, and the plan went through the two loops. *)
Lemma transformGlobalPlan_success (s : Planner) (env : Environment)
    (transformed_plan : list PoseStamped) :
  value (transformGlobalPlan s env) = (true, transformed_plan) ->
  exists (plan_pose : PoseStamped) (plan : list PoseStamped)
         (transform : StampedTransform) (robot_pose : Pose),
    global_plan_ s = plan_pose :: plan
    /\ lookupTransform env (global_frame_ (params s))
         (frame_id plan_pose) (stamp plan_pose) = inl transform
    /\ transformPose env (frame_id plan_pose) (getBaseFrameID env)
       = inl robot_pose
    /\ transformed_plan
       = transform_in_window (global_frame_ (params s)) transform robot_pose
           (dist_threshold env * dist_threshold env)
           (fst (skip_to_window robot_pose
                   (dist_threshold env * dist_threshold env)
                   (plan_pose :: plan) DBL_MAX))
           (snd (skip_to_window robot_pose
                   (dist_threshold env * dist_threshold env)
                   (plan_pose :: plan) DBL_MAX)).
Proof.
  unfold transformGlobalPlan, vec_at. intro H.
  destruct (global_plan_ s) as [|plan_pose plan];
    cbn -[skip_to_window transform_in_window] in H; [discriminate|].
  destruct (lookupTransform env _ _ _) as [transform|] eqn:Etr;
    [|discriminate].
  destruct (transformPose env _ _) as [robot_pose|] eqn:Erp; [|discriminate].
  exists plan_pose, plan, transform, robot_pose.
  destruct (skip_to_window _ _ _ _) as [rest sq_dist].
  cbn -[transform_in_window] in *. injection H as <-. auto.
Qed.

(** A cycle whose transformed plan is empty returns false and changes
    neither [cmd_vel] nor the retained plan. *)
Lemma empty_transformed_plan_cycle (s : Planner) (env : Environment)
    (cmd_vel : Twist) :
  snd (value (transformGlobalPlan s env)) = [] ->
  exists r : Result,
    computeVelocityCommands s env cmd_vel = Some r
    /\ ret r = false
    /\ cmd_vel_out r = cmd_vel
    /\ published r = []
    /\ global_plan_ (planner r) = global_plan_ s.
Proof.
  intro H. unfold computeVelocityCommands, cycle_front. rewrite H.
  destruct (initialized_ s); simpl; [|eexists; repeat split].
  destruct (getRobotPose env); [|eexists; repeat split].
  destruct (fst (value (transformGlobalPlan s env))); simpl;
    [|eexists; repeat split].
  destruct (prune_plan_ (params s)); simpl; eexists; repeat split.
Qed.

(** X5. Whenever the window is smaller than the largest double, the first
    pose of the retained plan is skipped: the transformed plan is the image
    of a run of poses that begins after it, and so is shorter than the
    retained plan. *)
Theorem first_pose_is_skipped (s : Planner) (env : Environment)
    (transformed_plan : list PoseStamped) :
  value (transformGlobalPlan s env) = (true, transformed_plan) ->
  dist_threshold env * dist_threshold env < DBL_MAX ->
  exists (first : PoseStamped) (transform : StampedTransform)
         (skipped kept beyond : list PoseStamped),
    global_plan_ s = first :: skipped ++ kept ++ beyond
    /\ lookupTransform env (global_frame_ (params s))
         (frame_id first) (stamp first) = inl transform
    /\ transformed_plan
       = map (transform_pose (global_frame_ (params s)) transform) kept
    /\ (List.length transformed_plan < List.length (global_plan_ s))%nat.
Proof.
  intros H Hthr.
  destruct (transformGlobalPlan_success s env H)
    as (first & plan & transform & robot_pose & Hplan & Htr & _ & ->).
  simpl. apply Qltb_lt in Hthr. rewrite Hthr.
  destruct (skip_to_window robot_pose _ plan _) as [rest sq_dist] eqn:Eskip.
  apply skip_to_window_spec in Eskip.
  destruct Eskip as (skipped & -> & _).
  destruct (transform_in_window_spec (global_frame_ (params s)) transform
              robot_pose (dist_threshold env * dist_threshold env) rest sq_dist)
    as (kept & beyond & -> & Hmap & _).
  exists first, transform, skipped, kept, beyond.
  simpl. rewrite Hmap, Hplan.
  repeat split; auto.
  simpl. rewrite length_map, !length_app. lia.
Qed.

(** X6. A plan of a single pose cannot be followed: whatever the pose and
    wherever the robot, the cycle returns false, [cmd_vel] is left alone,
    nothing is published and the plan is kept. *)
Theorem single_pose_plan_no_command (s : Planner) (env : Environment)
    (cmd_vel : Twist) (only : PoseStamped) :
  global_plan_ s = [only] ->
  dist_threshold env * dist_threshold env < DBL_MAX ->
  exists r : Result,
    computeVelocityCommands s env cmd_vel = Some r
    /\ ret r = false
    /\ cmd_vel_out r = cmd_vel
    /\ published r = []
    /\ global_plan_ (planner r) = [only].
Proof.
  intros Hplan Hthr. rewrite <- Hplan.
  apply empty_transformed_plan_cycle.
  unfold transformGlobalPlan, vec_at. rewrite Hplan.
  cbn -[skip_to_window transform_in_window].
  destruct (lookupTransform env _ _ _); [|reflexivity].
  destruct (transformPose env _ _); [|reflexivity].
  apply Qltb_lt in Hthr. simpl. rewrite Hthr. reflexivity.
Qed.

Lemma skip_to_window_all_far (robot_pose : Pose) (thr : Q)
    (rest : list PoseStamped) :
  forall sq_dist : Q,
  thr < sq_dist ->
  Forall (fun p => thr < sq_dist_to robot_pose p) rest ->
  fst (skip_to_window robot_pose thr rest sq_dist) = [].
Proof.
  induction rest as [|p rest IH]; intros sq_dist Hsq Hfar; simpl;
    [reflexivity|].
  apply Qltb_lt in Hsq. rewrite Hsq.
  inversion Hfar; subst. apply IH; assumption.
Qed.

(** X7. When every pose of the plan is outside the window around the
    robot, [transformGlobalPlan] succeeds with an empty plan, and the cycle
    returns false, leaves [cmd_vel] alone and publishes nothing. *)
Theorem plan_outside_window_no_command (s : Planner) (env : Environment)
    (cmd_vel : Twist) (plan_pose : PoseStamped)
    (transform : StampedTransform) (robot_pose : Pose) :
  hd_error (global_plan_ s) = Some plan_pose ->
  lookupTransform env (global_frame_ (params s))
    (frame_id plan_pose) (stamp plan_pose) = inl transform ->
  transformPose env (frame_id plan_pose) (getBaseFrameID env) = inl robot_pose ->
  dist_threshold env * dist_threshold env < DBL_MAX ->
  Forall (fun p => dist_threshold env * dist_threshold env
                   < sq_dist_to robot_pose p) (global_plan_ s) ->
  value (transformGlobalPlan s env) = (true, [])
  /\ exists r : Result,
       computeVelocityCommands s env cmd_vel = Some r
       /\ ret r = false
       /\ cmd_vel_out r = cmd_vel
       /\ published r = [].
Proof.
  intros Hhd Htr Hrp Hthr Hfar.
  assert (value (transformGlobalPlan s env) = (true, [])) as Ht.
  { unfold transformGlobalPlan, vec_at.
    destruct (global_plan_ s) as [|w plan] eqn:Eplan; [discriminate|].
    injection Hhd as ->.
    cbn -[skip_to_window transform_in_window]. rewrite Htr, Hrp.
    pose proof (skip_to_window_all_far Hthr Hfar) as Hskip.
    destruct (skip_to_window _ _ _ _) as [rest sq_dist].
    simpl in Hskip. subst rest. reflexivity. }
  split; [exact Ht|].
  destruct (empty_transformed_plan_cycle s env cmd_vel) as (r & Hr);
    [rewrite Ht; reflexivity|].
  exists r. tauto.
Qed.

(** X8. Every pose of a transformed plan is stamped with the global frame
    of the costmap and with the time of the transform that was looked up
    for the first pose of the plan. *)
Theorem transformed_plan_in_global_frame (s : Planner) (env : Environment)
    (transformed_plan : list PoseStamped) :
  value (transformGlobalPlan s env) = (true, transformed_plan) ->
  exists (plan_pose : PoseStamped) (transform : StampedTransform),
    hd_error (global_plan_ s) = Some plan_pose
    /\ lookupTransform env (global_frame_ (params s))
         (frame_id plan_pose) (stamp plan_pose) = inl transform
    /\ Forall (fun p => frame_id p = global_frame_ (params s)
                        /\ stamp p = tr_stamp transform) transformed_plan.
Proof.
  intro H.
  destruct (transformGlobalPlan_success s env H)
    as (plan_pose & plan & transform & robot_pose & Hplan & Htr & _ & ->).
  exists plan_pose, transform. rewrite Hplan. repeat split; auto.
  destruct (transform_in_window_spec (global_frame_ (params s)) transform
              robot_pose (dist_threshold env * dist_threshold env)
              (fst (skip_to_window robot_pose
                      (dist_threshold env * dist_threshold env)
                      (plan_pose :: plan) DBL_MAX))
              (snd (skip_to_window robot_pose
                      (dist_threshold env * dist_threshold env)
                      (plan_pose :: plan) DBL_MAX)))
    as (kept & beyond & _ & -> & _).
  apply Forall_forall. intros p Hin.
  apply in_map_iff in Hin. destruct Hin as (q & <- & _). split; reflexivity.
Qed.

(** ** Pruning, again *)

Lemma prune_loop_fixed (global_pose : Pose) (plan : list PoseStamped) :
  forall global_plan plan' global_plan' : list PoseStamped,
  prune_loop global_pose plan global_plan = (plan', global_plan') ->
  prune_loop global_pose plan' global_plan' = (plan', global_plan').
Proof.
  induction plan as [|w plan IH]; intros global_plan plan' global_plan' H;
    simpl in H.
  - injection H as <- <-. reflexivity.
  - destruct (Qltb (sq_dist_to global_pose w) 1) eqn:E.
    + injection H as <- <-. simpl. rewrite E. reflexivity.
    + exact (IH _ _ _ H).
Qed.

Lemma prune_loop_lengths (global_pose : Pose) (plan : list PoseStamped) :
  forall global_plan : list PoseStamped,
  (List.length plan <= List.length global_plan)%nat ->
  (List.length (fst (prune_loop global_pose plan global_plan))
   <= List.length (snd (prune_loop global_pose plan global_plan)))%nat.
Proof.
  induction plan as [|w plan IH]; intros global_plan H; simpl.
  - lia.
  - destruct (Qltb (sq_dist_to global_pose w) 1); simpl; [exact H|].
    apply IH. destruct global_plan; simpl in *; lia.
Qed.

Lemma prune_loop_head (global_pose : Pose) (plan : list PoseStamped) :
  forall (global_plan : list PoseStamped) (w : PoseStamped)
         (rest : list PoseStamped),
  fst (prune_loop global_pose plan global_plan) = w :: rest ->
  sq_dist_to global_pose w < 1.
Proof.
  induction plan as [|p plan IH]; intros global_plan w rest H; simpl in H.
  - discriminate.
  - destruct (Qltb (sq_dist_to global_pose p) 1) eqn:E.
    + simpl in H. injection H as <- _. apply Qltb_lt. exact E.
    + exact (IH _ _ _ H).
Qed.

(** X9. Pruning twice is pruning once: [prunePlan] leaves the two plans it
    has pruned as they are. *)
Theorem prunePlan_twice (global_pose : Pose)
    (plan global_plan plan' global_plan' : list PoseStamped) :
  prunePlan global_pose plan global_plan = Some (plan', global_plan') ->
  prunePlan global_pose plan' global_plan' = Some (plan', global_plan').
Proof.
  unfold prunePlan. intro H.
  destruct (Nat.leb (List.length plan) (List.length global_plan)) eqn:E;
    [|discriminate].
  injection H as H.
  apply Nat.leb_le in E.
  pose proof (prune_loop_lengths global_pose plan global_plan E) as Hlen.
  rewrite H in Hlen. simpl in Hlen.
  apply Nat.leb_le in Hlen. rewrite Hlen.
  rewrite (prune_loop_fixed _ _ _ H). reflexivity.
Qed.

(** X10. With [prune_plan_] set, a cycle that gets to the goal test has a
    transformed plan whose first pose is less than a metre from the robot;
    if no pose of the transformed plan is that near, the cycle has
    returned false before. *)
Theorem pruned_plan_starts_near (s : Planner) (env : Environment)
    (s1 : Planner) (global_pose : Pose) (transformed_plan : list PoseStamped)
    (goal_point : PoseStamped) (robot_vel : Pose) (oor : bool) :
  cycle_front s env
  = Front_continue s1 global_pose transformed_plan goal_point robot_vel oor ->
  prune_plan_ (params s) = true ->
  getRobotPose env = Some global_pose
  /\ exists (w : PoseStamped) (rest : list PoseStamped),
       transformed_plan = w :: rest
       /\ sq_dist_to global_pose w < 1.
Proof.
  unfold cycle_front. intros H Hprune. rewrite Hprune in H.
  destruct (initialized_ s); simpl in H; [|discriminate].
  destruct (getRobotPose env) as [gp|]; [|discriminate].
  destruct (fst (value (transformGlobalPlan s env))); simpl in H;
    [|discriminate].
  unfold prunePlan in H.
  destruct (Nat.leb _ _); [|discriminate].
  destruct (prune_loop gp _ _) as [tp g] eqn:Eloop.
  destruct (vec_back tp) as [goal|] eqn:Eback; [|discriminate].
  injection H as <- <- <- <- <- <-.
  split; [reflexivity|].
  destruct tp as [|w rest]; [discriminate|].
  exists w, rest. split; [reflexivity|].
  apply (prune_loop_head gp (snd (value (transformGlobalPlan s env)))
           (global_plan_ s) (rest := rest)).
  rewrite Eloop. reflexivity.
Qed.

(** ** What a cycle keeps *)

Lemma cycle_front_plan (s : Planner) (env : Environment) :
  match cycle_front s env with
  | Front_return s' _ | Front_continue s' _ _ _ _ _ =>
    exists dropped : list PoseStamped,
      global_plan_ s = dropped ++ global_plan_ s'
      /\ (prune_plan_ (params s) = false -> dropped = [])
  | Front_abort => True
  end.
Proof.
  assert (exists dropped : list PoseStamped,
            global_plan_ s = dropped ++ global_plan_ s
            /\ (prune_plan_ (params s) = false -> dropped = [])) as Hsame
    by (exists []; auto).
  unfold cycle_front.
  destruct (initialized_ s); simpl; [|exact Hsame].
  destruct (getRobotPose env) as [gp|]; [|exact Hsame].
  destruct (fst (value (transformGlobalPlan s env))); simpl; [|exact Hsame].
  destruct (prune_plan_ (params s)) eqn:Ep.
  - unfold prunePlan. destruct (Nat.leb _ _); [|exact I].
    destruct (prune_loop_spec gp (snd (value (transformGlobalPlan s env)))
                (global_plan_ s)) as (k & Hk & _).
    rewrite Hk.
    assert (exists dropped : list PoseStamped,
              global_plan_ s = dropped ++ skipn k (global_plan_ s)
              /\ (true = false -> dropped = [])) as Hdrop.
    { exists (firstn k (global_plan_ s)). split.
      - symmetry. apply firstn_skipn.
      - discriminate. }
    destruct (vec_back _); exact Hdrop.
  - destruct (vec_back _); simpl; exact Hsame.
Qed.

Lemma goal_branch_frame (s : Planner) (global_pose : Pose)
    (transformed_plan : list PoseStamped) (goal_th : Q) (robot_vel : Pose)
    (cmd_vel : Twist) (oor : bool) :
  let r := goal_branch s global_pose transformed_plan goal_th robot_vel
             cmd_vel oor in
  base_odom_ (planner r) = base_odom_ s
  /\ global_plan_ (planner r) = global_plan_ s
  /\ costmap_ (planner r) = costmap_ s.
Proof.
  unfold goal_branch.
  destruct (goalOrientationReached s global_pose goal_th);
    [repeat split; reflexivity|].
  destruct (findBestPath _ _ _ _) as [[tc path] drive_cmds].
  destruct (_ && _).
  - destruct (stopWithAccLimits _ _ _ _) as [[|] cmd]; repeat split.
  - destruct (rotateToGoal _ _ _ _ _) as [[|] cmd]; repeat split.
Qed.

Lemma drive_branch_frame (s : Planner) (env : Environment) (global_pose : Pose)
    (transformed_plan : list PoseStamped) (robot_vel : Pose) (oor : bool) :
  let r := drive_branch s env global_pose transformed_plan robot_vel oor in
  base_odom_ (planner r) = base_odom_ s
  /\ global_plan_ (planner r) = global_plan_ s
  /\ costmap_ (planner r) = costmap_ s.
Proof.
  unfold drive_branch.
  destruct (findBestPath _ _ _ _) as [[tc path] drive_cmds].
  destruct (Qltb (cost_ path) 0); repeat split.
Qed.

(** X11. A cycle always returns, and whatever it does it keeps the
    parameters, the initialisation and the odometry of the planner; of the
    retained plan it can only erase leading poses, and it erases none
    when [prune_plan_] is off. *)
Theorem cycle_keeps (s : Planner) (env : Environment) (cmd_vel : Twist) :
  exists r : Result,
    computeVelocityCommands s env cmd_vel = Some r
    /\ params (planner r) = params s
    /\ initialized_ (planner r) = initialized_ s
    /\ base_odom_ (planner r) = base_odom_ s
    /\ exists dropped : list PoseStamped,
         global_plan_ s = dropped ++ global_plan_ (planner r)
         /\ (prune_plan_ (params s) = false -> dropped = []).
Proof.
  destruct (cycle_flag s env cmd_vel) as (r & Hrun & Hp & Hi & _).
  exists r. repeat split; auto.
  - revert Hrun. unfold computeVelocityCommands.
    pose proof (cycle_front_frame s env) as Hframe.
    destruct (cycle_front s env) as [s' oor| |s' gp tp goal rv oor];
      [ | discriminate | ].
    + intro H. injection H as <-. simpl. apply Hframe.
    + destruct Hframe as (_ & _ & _ & Ho & _).
      destruct (goalPositionReached _ _ _ _); intro H; injection H as <-.
      * destruct (goal_branch_frame s' gp tp (getYaw (pose goal)) rv
                    cmd_vel oor) as (-> & _). exact Ho.
      * destruct (drive_branch_frame s' env gp tp rv oor) as (-> & _).
        exact Ho.
  - revert Hrun. unfold computeVelocityCommands.
    pose proof (cycle_front_plan s env) as Hplan.
    destruct (cycle_front s env) as [s' oor| |s' gp tp goal rv oor];
      [ | discriminate | ].
    + intro H. injection H as <-. exact Hplan.
    + destruct (goalPositionReached _ _ _ _); intro H; injection H as <-.
      * destruct (goal_branch_frame s' gp tp (getYaw (pose goal)) rv
                    cmd_vel oor) as (_ & -> & _). exact Hplan.
      * destruct (drive_branch_frame s' env gp tp rv oor) as (_ & -> & _).
        exact Hplan.
Qed.

(** ** The command and the publications *)

Lemma cycle_front_goal_point (s : Planner) (env : Environment) (s1 : Planner)
    (global_pose : Pose) (transformed_plan : list PoseStamped)
    (goal_point : PoseStamped) (robot_vel : Pose) (oor : bool) :
  cycle_front s env
  = Front_continue s1 global_pose transformed_plan goal_point robot_vel oor ->
  params s1 = params s
  /\ tc_ s1 = tc_ s
  /\ vec_back transformed_plan = Some goal_point
  /\ exists first rest, transformed_plan = first :: rest.
Proof.
  intro H. pose proof (cycle_front_frame s env) as Hframe.
  rewrite H in Hframe. destruct Hframe as (Hp & _ & _ & _ & Htc).
  repeat split; auto.
  - revert H. unfold cycle_front.
    destruct (initialized_ s); simpl; [|discriminate].
    destruct (getRobotPose env); [|discriminate].
    destruct (fst (value _)); simpl; [|discriminate].
    destruct (if prune_plan_ (params s) then _ else _) as [[tp g]|];
      [|discriminate].
    destruct (vec_back tp) eqn:E; [|discriminate].
    intro H. injection H as <- <- <- <- <- <-. exact E.
  - assert (vec_back transformed_plan = Some goal_point) as Hback.
    { revert H. unfold cycle_front.
      destruct (initialized_ s); simpl; [|discriminate].
      destruct (getRobotPose env); [|discriminate].
      destruct (fst (value _)); simpl; [|discriminate].
      destruct (if prune_plan_ (params s) then _ else _) as [[tp g]|];
        [|discriminate].
      destruct (vec_back tp) eqn:E; [|discriminate].
      intro H. injection H as <- <- <- <- <- <-. exact E. }
    destruct transformed_plan as [|first rest]; [discriminate|eauto].
Qed.

(** X12. A cycle that gets to the goal test never reads [cmd_vel]: for any
    two contents the caller may have left in it, the value returned, the
    planner, the messages published and the components linear.x, linear.y
    and angular.z of the command are the same.  These are the three
    components that the cycle assigns (lines 250-258, 265-295, 541-543 and
    595-599) and the three that [Twist] holds; linear.z, angular.x and
    angular.y are assigned on no path, and the statement is not about
    them. *)
Theorem command_ignores_old_cmd_vel (s : Planner) (env : Environment)
    (cmd_vel cmd_vel' : Twist) (s1 : Planner) (global_pose : Pose)
    (transformed_plan : list PoseStamped) (goal_point : PoseStamped)
    (robot_vel : Pose) (oor : bool) :
  cycle_front s env
  = Front_continue s1 global_pose transformed_plan goal_point robot_vel oor ->
  exists r r',
    computeVelocityCommands s env cmd_vel = Some r
    /\ computeVelocityCommands s env cmd_vel' = Some r'
    /\ ret r' = ret r
    /\ planner r' = planner r
    /\ published r' = published r
    /\ linear_x (cmd_vel_out r') = linear_x (cmd_vel_out r)
    /\ linear_y (cmd_vel_out r') = linear_y (cmd_vel_out r)
    /\ angular_z (cmd_vel_out r') = angular_z (cmd_vel_out r).
Proof.
  intro H. unfold computeVelocityCommands. rewrite H.
  destruct (goalPositionReached _ _ _ _);
    eexists; eexists; (split; [reflexivity|]); (split; [reflexivity|]);
    repeat split; reflexivity.
Qed.

(** X13. A cycle that finds the robot within both tolerances of the goal
    returns true with a zero command and the flag [rotating_to_goal_]
    false; it does not consult the trajectory planner, and it publishes
    the transformed plan, and no local plan. *)
Theorem goal_reached_cycle (s : Planner) (env : Environment)
    (cmd_vel : Twist) (s1 : Planner) (global_pose : Pose)
    (transformed_plan : list PoseStamped) (goal_point : PoseStamped)
    (robot_vel : Pose) (oor : bool) :
  cycle_front s env
  = Front_continue s1 global_pose transformed_plan goal_point robot_vel oor ->
  goalPositionReached s1 global_pose
    (origin_x (pose goal_point)) (origin_y (pose goal_point)) = true ->
  goalOrientationReached s1 global_pose (getYaw (pose goal_point)) = true ->
  exists (r : Result) (first : PoseStamped),
    computeVelocityCommands s env cmd_vel = Some r
    /\ ret r = true
    /\ cmd_vel_out r = {| linear_x := 0; linear_y := 0; angular_z := 0 |}
    /\ rotating_to_goal_ (planner r) = false
    /\ tc_ (planner r) = tc_ s
    /\ hd_error transformed_plan = Some first
    /\ published r
       = [(g_plan_pub_,
           {| path_frame_id := global_frame_ (params s);
              path_stamp := stamp first;
              poses := transformed_plan |})].
Proof.
  intros Hfront Hpos Hyaw.
  destruct (cycle_front_goal_point s env Hfront)
    as (Hp & Htc & _ & first & rest & ->).
  unfold computeVelocityCommands. rewrite Hfront, Hpos.
  unfold goal_branch. rewrite Hyaw.
  eexists. exists first. split; [reflexivity|].
  simpl. rewrite Hp, Htc. repeat split.
Qed.

Lemma publishPlan_messages (s : Planner) (path : list PoseStamped)
    (pub : Publisher) :
  Forall (fun m => poses (snd m) <> []
                   /\ path_frame_id (snd m) = global_frame_ (params s))
         (publishPlan s path pub)
  /\ (List.length (publishPlan s path pub) <= 1)%nat.
Proof.
  unfold publishPlan. destruct path as [|first rest]; simpl.
  - split; [constructor | lia].
  - split; [|lia]. constructor; [|constructor]. simpl. split; congruence.
Qed.

(** X14. No cycle publishes an empty path: every message a cycle hands to
    a publisher has at least one pose and the global frame of the costmap,
    and a cycle publishes at most two messages. *)
Theorem cycle_publishes_no_empty_path (s : Planner) (env : Environment)
    (cmd_vel : Twist) :
  exists r : Result,
    computeVelocityCommands s env cmd_vel = Some r
    /\ Forall (fun m => poses (snd m) <> []
                        /\ path_frame_id (snd m) = global_frame_ (params s))
              (published r)
    /\ (List.length (published r) <= 2)%nat.
Proof.
  destruct (computeVelocityCommands_returns s env cmd_vel) as (r & Hrun).
  exists r. split; [exact Hrun|].
  assert (forall (s' : Planner) (a b : list PoseStamped),
            params s' = params s ->
            Forall (fun m => poses (snd m) <> []
                             /\ path_frame_id (snd m) = global_frame_ (params s))
                   (publishPlan s' a g_plan_pub_ ++ publishPlan s' b l_plan_pub_)
            /\ (List.length (publishPlan s' a g_plan_pub_
                             ++ publishPlan s' b l_plan_pub_) <= 2)%nat)
    as Hpub.
  { intros s' a b Hp.
    destruct (publishPlan_messages s' a g_plan_pub_) as [Ha La].
    destruct (publishPlan_messages s' b l_plan_pub_) as [Hb Lb].
    rewrite Hp in Ha, Hb. split.
    - apply Forall_app. split; assumption.
    - rewrite length_app. lia. }
  assert (Forall (fun m : Publisher * Path =>
                    poses (snd m) <> []
                    /\ path_frame_id (snd m) = global_frame_ (params s)) []
          /\ (List.length (@nil (Publisher * Path)) <= 2)%nat) as Hnil
    by (split; [constructor | simpl; lia]).
  revert Hrun. unfold computeVelocityCommands.
  pose proof (cycle_front_frame s env) as Hframe.
  destruct (cycle_front s env) as [s' oor| |s' gp tp goal rv oor];
    [ | discriminate | ].
  - intro H. injection H as <-. exact Hnil.
  - destruct Hframe as (Hp & _).
    destruct (goalPositionReached _ _ _ _); intro H; injection H as <-.
    + unfold goal_branch.
      destruct (goalOrientationReached _ _ _);
        [exact (Hpub (set_rotating_to_goal_ s' false) tp [] Hp)|].
      destruct (findBestPath _ _ _ _) as [[tc path] drive_cmds].
      destruct (_ && _).
      * destruct (stopWithAccLimits _ _ _ _) as [[|] cmd];
          [exact (Hpub (set_tc_ s' tc) tp [] Hp) | exact Hnil].
      * destruct (rotateToGoal _ _ _ _ _) as [[|] cmd];
          [exact (Hpub (set_rotating_to_goal_ (set_tc_ s' tc) true) tp [] Hp)
          | exact Hnil].
    + unfold drive_branch.
      destruct (findBestPath _ _ _ _) as [[tc path] drive_cmds].
      destruct (Qltb (cost_ path) 0); apply Hpub; exact Hp.
Qed.

(** X15. A cycle away from the goal whose best trajectory has a cost of
    zero or more returns true; [cmd_vel] is the drive command of
    [findBestPath], the planner keeps the state [findBestPath] left, and
    the local plan it publishes, stamped with the current time, is the
    points of the trajectory in their order. *)
Theorem feasible_cycle_drives (s : Planner) (env : Environment)
    (cmd_vel : Twist) (s1 : Planner) (global_pose : Pose)
    (transformed_plan : list PoseStamped) (goal_point : PoseStamped)
    (robot_vel : Pose) (oor : bool)
    (tc : TrajectoryPlanner) (path : Trajectory) (drive_cmds : Pose) :
  cycle_front s env
  = Front_continue s1 global_pose transformed_plan goal_point robot_vel oor ->
  goalPositionReached s1 global_pose
    (origin_x (pose goal_point)) (origin_y (pose goal_point)) = false ->
  findBestPath (updatePlan (tc_ s1) transformed_plan) (costmap_ s1)
    global_pose robot_vel = (tc, path, drive_cmds) ->
  0 <= cost_ path ->
  exists r : Result,
    computeVelocityCommands s env cmd_vel = Some r
    /\ ret r = true
    /\ cmd_vel_out r
       = {| linear_x := origin_x drive_cmds;
            linear_y := origin_y drive_cmds;
            angular_z := getYaw drive_cmds |}
    /\ tc_ (planner r) = tc
    /\ rotating_to_goal_ (planner r) = rotating_to_goal_ s
    /\ (forall m : Path,
          In (l_plan_pub_, m) (published r) ->
          path_stamp m = now env
          /\ map (fun p => (origin_x (pose p), origin_y (pose p),
                            getYaw (pose p))) (poses m)
             = points path).
Proof.
  intros Hfront Hpos Hbest Hcost.
  pose proof (cycle_front_frame s env) as Hframe.
  rewrite Hfront in Hframe. destruct Hframe as (_ & _ & Hflag & _).
  destruct (cycle_front_goal_point s env Hfront)
    as (_ & _ & _ & first & rest & ->).
  unfold computeVelocityCommands. rewrite Hfront, Hpos.
  unfold drive_branch. rewrite Hbest.
  apply Qltb_ge in Hcost. rewrite Hcost.
  eexists. repeat split; auto.
  - simpl in H. destruct H as [H|H]; [discriminate|].
    destruct (points path) as [|[[x y] th] pts]; simpl in H; [contradiction|].
    destruct H as [H|[]]. injection H as <-. reflexivity.
  - simpl in H. destruct H as [H|H]; [discriminate|].
    destruct (points path) as [|[[x y] th] pts] eqn:Ep; simpl in H;
      [contradiction|].
    destruct H as [H|[]]. injection H as <-. simpl.
    f_equal. rewrite map_map.
    clear. induction pts as [|[[x y] th] pts IH]; simpl; [reflexivity|].
    rewrite IH. reflexivity.
Qed.

(** ** Bounds on the terminal commands *)

Lemma signed_magnitude_bound (v m : Q) :
  Qabs (sign v) <= 1 -> 0 <= m -> Qabs (sign v * m) <= m.
Proof.
  intros Hs Hm. rewrite Qabs_Qmult, (Qabs_pos m Hm).
  pose proof (Qabs_nonneg (sign v)) as H0.
  setoid_replace m with (1 * m) at 2 by ring.
  apply Qmult_le_compat_r; assumption.
Qed.

Lemma stop_velocity_bound (v acc : Q) :
  Qabs (sign v) <= 1 -> 0 <= acc ->
  Qabs (spec_stop_velocity v acc) <= Qabs v
  /\ (Qabs v <= acc * 0.1 -> spec_stop_velocity v acc == 0).
Proof.
  intros Hs Hacc. unfold spec_stop_velocity, fabs.
  destruct (stop_speed_bounds v Hacc) as [H0 Hv]. unfold fabs in *.
  split.
  - apply Qle_trans with (std_max 0 (Qabs v - acc * 0.1)); [|exact Hv].
    apply signed_magnitude_bound; assumption.
  - intro Hslow.
    destruct (std_max_cases 0 (Qabs v - acc * 0.1)) as [[H E]|[H E]];
      rewrite E; [exfalso; lra | ring].
Qed.

(** X16. [stopWithAccLimits] never speeds the robot up: if the sign
    function has magnitude at most one and the acceleration limits are not
    negative, the command on each axis is no larger in magnitude than the
    current velocity on that axis, whether or not the trajectory check
    passes; and when the check passes, an axis slower than a tenth of a
    second of braking is commanded to zero. *)
Theorem stopWithAccLimits_slows (s : Planner) (global_pose robot_vel : Pose)
    (cmd_vel : Twist) :
  (forall v : Q, Qabs (sign v) <= 1) ->
  0 <= acc_lim_x_ (params s) ->
  0 <= acc_lim_y_ (params s) ->
  0 <= acc_lim_theta_ (params s) ->
  let out := snd (stopWithAccLimits s global_pose robot_vel cmd_vel) in
  Qabs (linear_x out) <= Qabs (origin_x robot_vel)
  /\ Qabs (linear_y out) <= Qabs (origin_y robot_vel)
  /\ Qabs (angular_z out) <= Qabs (getYaw robot_vel)
  /\ (Qabs (origin_x robot_vel) <= acc_lim_x_ (params s) * 0.1 ->
      linear_x out == 0)
  /\ (Qabs (origin_y robot_vel) <= acc_lim_y_ (params s) * 0.1 ->
      linear_y out == 0)
  /\ (Qabs (getYaw robot_vel) <= acc_lim_theta_ (params s) * 0.1 ->
      angular_z out == 0).
Proof.
  intros Hsign Hx Hy Hth.
  destruct (stop_velocity_bound (origin_x robot_vel) (Hsign _) Hx) as [Bx Zx].
  destruct (stop_velocity_bound (origin_y robot_vel) (Hsign _) Hy) as [By Zy].
  destruct (stop_velocity_bound (getYaw robot_vel) (Hsign _) Hth) as [Bth Zth].
  unfold stopWithAccLimits. cbv zeta.
  fold (spec_stop_velocity (origin_x robot_vel) (acc_lim_x_ (params s))).
  fold (spec_stop_velocity (origin_y robot_vel) (acc_lim_y_ (params s))).
  fold (spec_stop_velocity (getYaw robot_vel) (acc_lim_theta_ (params s))).
  destruct (checkTrajectory _ _ _ _ _ _ _ _ _ _ _); simpl.
  - repeat split; assumption.
  - repeat split; try apply Qabs_nonneg; intros; reflexivity.
Qed.

(** X17. [rotateToGoal] asks for no more than the robot can reach and
    stop from: if the sign function has magnitude at most one, the angular
    acceleration limit is not negative and the square root returned is not
    negative, the angular command is at most [acc_lim_theta_ * 0.1] above
    the current angular speed and at most the speed
    sqrt(2 * acc_lim_theta_ * |ang_diff|) from which the robot can still
    stop at the goal; the linear commands are zero. *)
Theorem rotateToGoal_bounded (s : Planner) (global_pose robot_vel : Pose)
    (goal_th : Q) (cmd_vel : Twist) :
  (forall v : Q, Qabs (sign v) <= 1) ->
  0 <= acc_lim_theta_ (params s) ->
  0 <= sqrt (2 * acc_lim_theta_ (params s)
             * fabs (shortest_angular_distance (getYaw global_pose) goal_th)) ->
  let out := snd (rotateToGoal s global_pose robot_vel goal_th cmd_vel) in
  linear_x out = 0
  /\ linear_y out = 0
  /\ Qabs (angular_z out)
     <= Qabs (getYaw robot_vel) + acc_lim_theta_ (params s) * 0.1
  /\ Qabs (angular_z out)
     <= sqrt (2 * acc_lim_theta_ (params s)
              * fabs (shortest_angular_distance (getYaw global_pose) goal_th)).
Proof.
  intros Hsign Hacc Hsqrt.
  unfold rotateToGoal. cbv zeta.
  set (ang_diff := shortest_angular_distance (getYaw global_pose) goal_th) in *.
  set (v1 := if Qltb 0 ang_diff then _ else _).
  set (hi := fabs (getYaw robot_vel) + acc_lim_theta_ (params s) * 0.1).
  set (lo := fabs (getYaw robot_vel) - acc_lim_theta_ (params s) * 0.1).
  set (m2 := std_min (std_max (fabs v1) lo) hi).
  set (cap := sqrt (2 * acc_lim_theta_ (params s) * fabs ang_diff)) in *.
  set (v2 := sign v1 * m2).
  set (m3 := std_min cap (fabs v2)).
  assert (0 <= hi) as Hhi.
  { unfold hi, fabs. pose proof (Qabs_nonneg (getYaw robot_vel)). lra. }
  assert (0 <= m2 <= hi) as [Hm2 Hm2hi].
  { unfold m2. pose proof (Qabs_nonneg v1) as Hv1. unfold fabs.
    destruct (std_max_cases (Qabs v1) lo) as [[H1 E1]|[H1 E1]];
      unfold fabs in E1; rewrite E1;
      match goal with |- _ <= std_min ?a ?b <= _ =>
        destruct (std_min_cases a b) as [[H2 E2]|[H2 E2]]; rewrite E2
      end; split; lra. }
  assert (Qabs v2 <= hi) as Hv2.
  { apply Qle_trans with m2; [|exact Hm2hi].
    apply signed_magnitude_bound; [apply Hsign | exact Hm2]. }
  assert (0 <= m3 /\ m3 <= cap /\ m3 <= hi) as (Hm3 & Hm3cap & Hm3hi).
  { unfold m3, fabs. pose proof (Qabs_nonneg v2) as Hn.
    destruct (std_min_cases cap (Qabs v2)) as [[H E]|[H E]]; rewrite E;
      repeat split; lra. }
  assert (Qabs (sign v2 * m3) <= m3) as Hout
    by (apply signed_magnitude_bound; [apply Hsign | exact Hm3]).
  fold hi.
  destruct (checkTrajectory _ _ _ _ _ _ _ _ _ _ _); simpl;
    repeat split; try reflexivity.
  - apply Qle_trans with m3; assumption.
  - apply Qle_trans with m3; assumption.
  - exact Hhi.
  - exact Hsqrt.
Qed.

(** ** The calls together *)

(** X19. Once initialised, the planner stays initialised and keeps its
    parameters through every sequence of calls, and no call of the
    sequence stops the program. *)
Theorem calls_keep_configuration (s : Planner) (cs : list (Call Costmap2D)) :
  initialized_ s = true ->
  exists s' : Planner,
    calls s cs = Some s'
    /\ initialized_ s' = true
    /\ params s' = params s.
Proof.
  revert s. induction cs as [|c cs IH]; intros s Hi; simpl.
  - exists s. auto.
  - assert (exists s1 : Planner,
              call s c = Some s1
              /\ initialized_ s1 = true /\ params s1 = params s) as Hc.
    { destruct c as [ps env|plan|msg|env cmd_vel]; simpl.
      - exists (initialize s ps env). unfold initialize. rewrite Hi. auto.
      - exists (snd (setPlan s plan)). unfold setPlan. rewrite Hi. auto.
      - exists (odomCallback s msg). auto.
      - destruct (cycle_flag s env cmd_vel) as (r & Hrun & Hp & Hi' & _).
        exists (planner r). rewrite Hrun. simpl.
        repeat split; congruence. }
    destruct Hc as (s1 & -> & Hi1 & Hp1).
    destruct (IH s1 Hi1) as (s' & Hs' & Hi' & Hp').
    exists s'. repeat split; congruence.
Qed.

End Calls.

(** ** The lateral velocities *)

Import YVels.

Lemma load_loop_spec (rest : list XmlRpcValue) :
  forall y_vels ys : list Q,
  load_loop rest y_vels = Some ys
  <-> exists vs : list Q,
        Forall2 (fun vel y => y_vel_of vel = Some y) rest vs
        /\ ys = y_vels ++ vs.
Proof.
  induction rest as [|vel rest IH]; intros y_vels ys; simpl.
  - split.
    + intro H. injection H as <-. exists []. split; [constructor|].
      rewrite app_nil_r. reflexivity.
    + intros (vs & Hvs & ->). inversion Hvs. rewrite app_nil_r. reflexivity.
  - destruct vel;
      try (split; [discriminate | intros (vs & Hvs & _); inversion Hvs;
                                  subst; discriminate]).
    + rewrite IH. split.
      * intros (vs & Hvs & ->). exists (inject_Z i :: vs).
        split; [constructor; [reflexivity | exact Hvs]|].
        rewrite <- app_assoc. reflexivity.
      * intros (vs & Hvs & ->). inversion Hvs as [|? y ? vs' Hy Hvs']; subst.
        simpl in Hy. injection Hy as <-. exists vs'.
        split; [exact Hvs'|]. rewrite <- app_assoc. reflexivity.
    + rewrite IH. split.
      * intros (vs & Hvs & ->). exists (d :: vs).
        split; [constructor; [reflexivity | exact Hvs]|].
        rewrite <- app_assoc. reflexivity.
      * intros (vs & Hvs & ->). inversion Hvs as [|? y ? vs' Hy Hvs']; subst.
        simpl in Hy. injection Hy as <-. exists vs'.
        split; [exact Hvs'|]. rewrite <- app_assoc. reflexivity.
Qed.

(** X18. A [y_vels] parameter that is a list is taken as it stands:
    [loadYVels] returns one velocity for each entry, in the order of the
    list, an int as the number it is; an empty list gives no lateral
    velocity at all, not the four defaults; and the assertion stops the
    program exactly when some entry is neither an int nor a double. *)
Theorem loadYVels_of_list (a : list XmlRpcValue) :
  (forall ys : list Q,
     loadYVels (Some (TypeArray a)) = Some ys
     <-> Forall2 (fun vel y => y_vel_of vel = Some y) a ys)
  /\ (loadYVels (Some (TypeArray a)) = None
      <-> Exists (fun vel => y_vel_of vel = None) a).
Proof.
  assert (forall ys : list Q,
            loadYVels (Some (TypeArray a)) = Some ys
            <-> Forall2 (fun vel y => y_vel_of vel = Some y) a ys) as Hsome.
  { intro ys. unfold loadYVels. rewrite load_loop_spec. simpl. split.
    - intros (vs & Hvs & ->). exact Hvs.
    - intro H. exists ys. auto. }
  split; [exact Hsome|].
  split.
  - intro Hnone.
    assert (forall ys, ~ Forall2 (fun vel y => y_vel_of vel = Some y) a ys)
      as Hno.
    { intros ys H. apply Hsome in H. congruence. }
    clear Hsome Hnone. induction a as [|vel a IH].
    + exfalso. apply (Hno []). constructor.
    + destruct (y_vel_of vel) as [y|] eqn:E; [|left; exact E].
      right. apply IH. intros ys H. apply (Hno (y :: ys)).
      constructor; assumption.
  - intro Hex.
    destruct (loadYVels (Some (TypeArray a))) as [ys|] eqn:E; [|reflexivity].
    exfalso. pose proof (proj1 (Hsome ys) eq_refl) as F. clear Hsome E.
    rename F into E. revert ys E. induction Hex as [vel a Hv|vel a Hex IH]; intros ys E;
      inversion E; subst.
    + congruence.
    + eapply IH. eassumption.
Qed.

(** ** The goal test and the cycle *)

Section GoalAnswer.

Variables TrajectoryPlanner Costmap2D : Type.
Context {collab : Collaborators TrajectoryPlanner Costmap2D}.

Local Abbreviation Planner := (TrajectoryPlannerROS TrajectoryPlanner Costmap2D).
Local Abbreviation Environment := (Env Costmap2D).
Local Abbreviation Result := (CycleResult TrajectoryPlanner Costmap2D).

(** X20. [isGoalReached] returns false when the retained plan is empty,
    and when tf throws at the lookup of the transform of the last pose of
    the plan. *)
Theorem isGoalReached_refuses (s : Planner) (env : Environment) :
  global_plan_ s = []
  \/ (exists (last : PoseStamped) (e : tf_exception),
        vec_back (global_plan_ s) = Some last
        /\ lookupTransform env (global_frame_ (params s))
             (frame_id last) (stamp last) = inr e) ->
  value (isGoalReached s env) = false.
Proof.
  unfold isGoalReached.
  intros [Hempty|(last & e & Hback & Hthrow)].
  - rewrite Hempty. destruct (initialized_ s); reflexivity.
  - rewrite Hback.
    destruct (initialized_ s); simpl; [|reflexivity].
    destruct (Nat.ltb _ _); [reflexivity|].
    rewrite Hthrow. reflexivity.
Qed.

Lemma vec_back_skipn (A : Type) (l : list A) :
  forall k : nat,
  (k < List.length l)%nat ->
  vec_back (skipn k l) = vec_back l.
Proof.
  unfold vec_back.
  induction l as [|a l IH]; intros k Hk; simpl in Hk; [lia|].
  destruct k as [|k]; [reflexivity|].
  simpl skipn. rewrite IH by lia.
  simpl List.length. destruct l as [|b l]; [simpl in Hk; lia|].
  simpl. rewrite Nat.sub_0_r. reflexivity.
Qed.

(** [isGoalReached] reads the parameters, the initialisation, the
    odometry and the last pose of the plan, and nothing else. *)
Lemma isGoalReached_reads (s s' : Planner) (env : Environment) :
  params s' = params s ->
  initialized_ s' = initialized_ s ->
  base_odom_ s' = base_odom_ s ->
  vec_back (global_plan_ s') = vec_back (global_plan_ s) ->
  value (isGoalReached s' env) = value (isGoalReached s env).
Proof.
  intros Hp Hi Ho Hback.
  unfold isGoalReached, goalPositionReached, goalOrientationReached, stopped.
  rewrite Hp, Hi, Ho, Hback.
  destruct (initialized_ s); simpl; [|reflexivity].
  assert (logical_not (List.length (global_plan_ s'))
          = logical_not (List.length (global_plan_ s))) as ->.
  { destruct (global_plan_ s') as [|a l'], (global_plan_ s) as [|b l];
      try reflexivity; unfold vec_back in Hback; simpl in Hback.
    - rewrite Nat.sub_0_r in Hback.
      destruct (nth_error (b :: l) (List.length l)) eqn:E; [discriminate|].
      apply nth_error_None in E. simpl in E. lia.
    - rewrite Nat.sub_0_r in Hback.
      destruct (nth_error (a :: l') (List.length l')) eqn:E; [discriminate|].
      apply nth_error_None in E. simpl in E. lia. }
  destruct (Nat.ltb _ _); [reflexivity|].
  destruct (vec_back (global_plan_ s)); [|reflexivity].
  destruct (lookupTransform env _ _ _); [|reflexivity].
  destruct (getRobotPose env); [|reflexivity].
  repeat match goal with
         | |- context [if ?b then _ else _] => destruct b
         end; reflexivity.
Qed.

Lemma cycle_front_last_pose (s : Planner) (env : Environment) :
  dist_threshold env * dist_threshold env < DBL_MAX ->
  match cycle_front s env with
  | Front_return s' _ | Front_continue s' _ _ _ _ _ =>
    vec_back (global_plan_ s') = vec_back (global_plan_ s)
  | Front_abort => True
  end.
Proof.
  intro Hthr. unfold cycle_front.
  destruct (initialized_ s); simpl; [|reflexivity].
  destruct (getRobotPose env) as [gp|]; [|reflexivity].
  destruct (fst (value (transformGlobalPlan s env))) eqn:Eok; simpl;
    [|reflexivity].
  destruct (prune_plan_ (params s)).
  - assert (List.length (snd (value (transformGlobalPlan s env)))
            < List.length (global_plan_ s))%nat as Hshort.
    { revert Eok. unfold transformGlobalPlan, vec_at.
      destruct (global_plan_ s) as [|plan_pose plan];
        cbn -[skip_to_window transform_in_window]; [discriminate|].
      destruct (lookupTransform env _ _ _) as [transform|];
        cbn -[skip_to_window transform_in_window]; [|discriminate].
      destruct (transformPose env _ _) as [robot_pose|];
        cbn -[skip_to_window transform_in_window]; [|discriminate].
      intros _. simpl skip_to_window.
      apply Qltb_lt in Hthr. rewrite Hthr.
      pose proof (skip_to_window_length robot_pose
                    (dist_threshold env * dist_threshold env) plan
                    (sq_dist_to robot_pose plan_pose)) as Hskip.
      destruct (skip_to_window _ _ plan _) as [rest sq_dist].
      pose proof (transform_in_window_length (global_frame_ (params s))
                    transform robot_pose
                    (dist_threshold env * dist_threshold env) rest sq_dist)
        as Hin.
      cbn -[transform_in_window] in *. lia. }
    unfold prunePlan. destruct (Nat.leb _ _); [|exact I].
    destruct (prune_loop_spec gp (snd (value (transformGlobalPlan s env)))
                (global_plan_ s)) as (k & Hk & Hle & _).
    rewrite Hk.
    assert (vec_back (skipn k (global_plan_ s)) = vec_back (global_plan_ s))
      as Hback by (apply vec_back_skipn; lia).
    destruct (vec_back (skipn k (snd _))); exact Hback.
  - destruct (vec_back _); reflexivity.
Qed.

(** X21. A cycle does not change what [isGoalReached] answers: when the
    window is smaller than the largest double, pruning never erases the
    last pose of the retained plan, and [isGoalReached] returns the same
    value on the planner as the cycle leaves it as on the planner before,
    whatever the collaborators answer to it. *)
Theorem cycle_keeps_goal_answer (s : Planner) (env env' : Environment)
    (cmd_vel : Twist) :
  dist_threshold env * dist_threshold env < DBL_MAX ->
  exists r : Result,
    computeVelocityCommands s env cmd_vel = Some r
    /\ vec_back (global_plan_ (planner r)) = vec_back (global_plan_ s)
    /\ value (isGoalReached (planner r) env') = value (isGoalReached s env').
Proof.
  intro Hthr.
  destruct (cycle_flag s env cmd_vel) as (r & Hrun & Hp & Hi & _).
  exists r. split; [exact Hrun|].
  assert (base_odom_ (planner r) = base_odom_ s
          /\ vec_back (global_plan_ (planner r)) = vec_back (global_plan_ s))
    as [Ho Hback].
  { revert Hrun. unfold computeVelocityCommands.
    pose proof (cycle_front_frame s env) as Hframe.
    pose proof (cycle_front_last_pose s env Hthr) as Hlast.
    destruct (cycle_front s env) as [s' oor| |s' gp tp goal rv oor];
      [ | discriminate | ].
    - intro H. injection H as <-. simpl. split; [apply Hframe | exact Hlast].
    - destruct Hframe as (_ & _ & _ & Ho & _).
      destruct (goalPositionReached _ _ _ _); intro H; injection H as <-.
      + destruct (goal_branch_frame s' gp tp (getYaw (pose goal)) rv
                    cmd_vel oor) as (-> & -> & _). auto.
      + destruct (drive_branch_frame s' env gp tp rv oor) as (-> & -> & _).
        auto. }
  split; [exact Hback|].
  apply isGoalReached_reads; assumption.
Qed.

End GoalAnswer.

(** ** The further properties on the scenarios *)

Import Faults.

Lemma sign_of_bound (v : Q) : Qabs (sign_of v) <= 1.
Proof.
  unfold sign_of. destruct (Qltb v 0); vm_compute; discriminate.
Qed.

(** The planner as constructed, before [initialize]. *)
Lemma uninitialized_calls_refuse_witness :
  initialized_ constructed = false
  /\ setPlan constructed short_plan = (false, constructed)
  /\ computeVelocityCommands constructed (env_at origin true) zero_twist
     = Some {| ret := false; cmd_vel_out := zero_twist; planner := constructed;
               published := []; index_out_of_range := false |}
  /\ isGoalReached constructed (env_at origin true) = mkRun false false.
Proof.
  split; [reflexivity|].
  exact (uninitialized_calls_refuse constructed (env_at origin true)
           short_plan zero_twist eq_refl).
Defined.

(** At the goal, with the pose of the robot lost. *)
Lemma no_robot_pose_no_command_witness :
  getRobotPose env_without_pose = None
  /\ computeVelocityCommands at_goal env_without_pose zero_twist
     = Some {| ret := false; cmd_vel_out := zero_twist; planner := at_goal;
               published := []; index_out_of_range := false |}
  /\ value (isGoalReached at_goal env_without_pose) = false.
Proof.
  split; [reflexivity|].
  exact (no_robot_pose_no_command at_goal env_without_pose zero_twist eq_refl).
Defined.

(** At the goal, with tf extrapolating into the future. *)
Lemma no_transform_no_command_witness :
  value (transformGlobalPlan at_goal
           (env_without_transform ExtrapolationException)) = (false, [])
  /\ computeVelocityCommands at_goal
       (env_without_transform ExtrapolationException) zero_twist
     = Some {| ret := false; cmd_vel_out := zero_twist; planner := at_goal;
               published := []; index_out_of_range := false |}.
Proof.
  exact (no_transform_no_command at_goal
           (env_without_transform ExtrapolationException) zero_twist
           (plan_pose := waypoint 0 0 0) (e := ExtrapolationException)
           eq_refl (or_introl eq_refl)).
Defined.

(** The winding plan loses its first pose, at the robot. *)
Lemma first_pose_is_skipped_witness :
  exists first transform skipped kept beyond,
    global_plan_ winding = first :: skipped ++ kept ++ beyond
    /\ lookupTransform (env_at origin true) (global_frame_ (params winding))
         (frame_id first) (stamp first) = inl transform
    /\ [waypoint 1 0 0; waypoint 10 0 0]
       = map (transform_pose (global_frame_ (params winding)) transform) kept
    /\ (List.length [waypoint 1 0 0; waypoint 10 0 0]
        < List.length (global_plan_ winding))%nat.
Proof.
  refine (first_pose_is_skipped winding (env_at origin true) _ _);
    vm_compute; reflexivity.
Defined.

(** A plan of one pose at the robot, everything else in order. *)
Lemma single_pose_plan_no_command_witness :
  exists r,
    computeVelocityCommands single (env_at origin true) zero_twist = Some r
    /\ ret r = false
    /\ cmd_vel_out r = zero_twist
    /\ published r = []
    /\ global_plan_ (planner r) = [waypoint 0 0 0].
Proof.
  refine (single_pose_plan_no_command single (env_at origin true) zero_twist
            (only := waypoint 0 0 0) eq_refl _).
  vm_compute. reflexivity.
Defined.

(** A plan that begins ten metres from the robot. *)
Lemma plan_outside_window_no_command_witness :
  value (transformGlobalPlan distant (env_at origin true)) = (true, [])
  /\ exists r,
       computeVelocityCommands distant (env_at origin true) zero_twist = Some r
       /\ ret r = false
       /\ cmd_vel_out r = zero_twist
       /\ published r = [].
Proof.
  refine (plan_outside_window_no_command distant (env_at origin true)
            zero_twist (plan_pose := waypoint 10 0 0)
            (transform := identity_transform) (robot_pose := origin)
            eq_refl eq_refl eq_refl _ _).
  - vm_compute. reflexivity.
  - repeat constructor.
Defined.

(** The transformed winding plan is in the frame "odom". *)
Lemma transformed_plan_in_global_frame_witness :
  exists plan_pose transform,
    hd_error (global_plan_ winding) = Some plan_pose
    /\ lookupTransform (env_at origin true) (global_frame_ (params winding))
         (frame_id plan_pose) (stamp plan_pose) = inl transform
    /\ Forall (fun p => frame_id p = global_frame_ (params winding)
                        /\ stamp p = tr_stamp transform)
              [waypoint 1 0 0; waypoint 10 0 0].
Proof.
  refine (transformed_plan_in_global_frame winding (env_at origin true) _).
  vm_compute. reflexivity.
Defined.

(** The plans of the pruning example, pruned again. *)
Lemma prunePlan_twice_witness :
  prunePlan origin
    [waypoint 3 0 0; waypoint 2 0 0; waypoint 0.5 0 0; waypoint 4 0 0]
    winding_plan
  = Some ([waypoint 0.5 0 0; waypoint 4 0 0],
          [waypoint 10 0 0; waypoint 0.5 0 0])
  /\ prunePlan origin [waypoint 0.5 0 0; waypoint 4 0 0]
       [waypoint 10 0 0; waypoint 0.5 0 0]
     = Some ([waypoint 0.5 0 0; waypoint 4 0 0],
             [waypoint 10 0 0; waypoint 0.5 0 0]).
Proof.
  split; [reflexivity|].
  refine (prunePlan_twice origin
            [waypoint 3 0 0; waypoint 2 0 0; waypoint 0.5 0 0; waypoint 4 0 0]
            winding_plan _).
  reflexivity.
Defined.

(** At the goal: the one transformed pose is five centimetres away. *)
Lemma pruned_plan_starts_near_witness :
  getRobotPose (env_at origin true) = Some origin
  /\ exists w rest,
       [waypoint 0.05 0 1] = w :: rest /\ sq_dist_to origin w < 1.
Proof.
  refine (pruned_plan_starts_near at_goal (env_at origin true)
            (s1 := set_costmap_ at_goal true)
            (goal_point := waypoint 0.05 0 1) (robot_vel := origin)
            (oor := false) _ _);
    vm_compute; reflexivity.
Defined.

(** At the goal, with two different contents of [cmd_vel]. *)
Lemma command_ignores_old_cmd_vel_witness :
  exists r r',
    computeVelocityCommands at_goal (env_at origin true) zero_twist = Some r
    /\ computeVelocityCommands at_goal (env_at origin true)
         {| linear_x := 0.5; linear_y := 0.1; angular_z := 0.2 |} = Some r'
    /\ ret r' = ret r
    /\ planner r' = planner r
    /\ published r' = published r
    /\ linear_x (cmd_vel_out r') = linear_x (cmd_vel_out r)
    /\ linear_y (cmd_vel_out r') = linear_y (cmd_vel_out r)
    /\ angular_z (cmd_vel_out r') = angular_z (cmd_vel_out r).
Proof.
  refine (command_ignores_old_cmd_vel at_goal (env_at origin true) _ _
            (s1 := set_costmap_ at_goal true) (global_pose := origin)
            (transformed_plan := [waypoint 0.05 0 1])
            (goal_point := waypoint 0.05 0 1) (robot_vel := origin)
            (oor := false) _).
  vm_compute. reflexivity.
Defined.

(** At the goal and turned to the goal yaw. *)
Lemma goal_reached_cycle_witness :
  exists r first,
    computeVelocityCommands at_goal (env_at turned true)
      {| linear_x := 0.5; linear_y := 0.1; angular_z := 0.2 |} = Some r
    /\ ret r = true
    /\ cmd_vel_out r = {| linear_x := 0; linear_y := 0; angular_z := 0 |}
    /\ rotating_to_goal_ (planner r) = false
    /\ tc_ (planner r) = tc_ at_goal
    /\ hd_error [waypoint 0.05 0 1] = Some first
    /\ published r
       = [(g_plan_pub_,
           {| path_frame_id := global_frame_ (params at_goal);
              path_stamp := stamp first;
              poses := [waypoint 0.05 0 1] |})].
Proof.
  refine (goal_reached_cycle at_goal (env_at turned true) _
            (s1 := set_costmap_ at_goal true) (global_pose := turned)
            (goal_point := waypoint 0.05 0 1) (robot_vel := origin)
            (oor := false) _ _ _);
    vm_compute; reflexivity.
Defined.

(** Half a metre from the goal, the costmap free. *)
Lemma feasible_cycle_drives_witness :
  exists r,
    computeVelocityCommands at_goal (env_at away true) zero_twist = Some r
    /\ ret r = true
    /\ cmd_vel_out r = {| linear_x := 0.3; linear_y := 0; angular_z := 0.1 |}
    /\ tc_ (planner r) = tt
    /\ rotating_to_goal_ (planner r) = rotating_to_goal_ at_goal
    /\ (forall m : Path,
          In (l_plan_pub_, m) (published r) ->
          path_stamp m = now (env_at away true)
          /\ map (fun p => (origin_x (pose p), origin_y (pose p),
                            getYaw (pose p))) (poses m)
             = []).
Proof.
  refine (feasible_cycle_drives at_goal (env_at away true) zero_twist
            (s1 := set_costmap_ at_goal true) (global_pose := away)
            (transformed_plan := [waypoint 0.05 0 1])
            (goal_point := waypoint 0.05 0 1) (robot_vel := origin)
            (oor := false) (tc := tt)
            (path := {| cost_ := 0; points := [] |})
            (drive_cmds := {| origin_x := 0.3; origin_y := 0; getYaw := 0.1 |})
            _ _ _ _);
    vm_compute; try reflexivity; discriminate.
Defined.

(** Braking from (0.5, 0.1, 0.2) with the default limits. *)
Lemma stopWithAccLimits_slows_witness :
  let out :=
    snd (stopWithAccLimits ready origin
           {| origin_x := 0.5; origin_y := 0.1; getYaw := 0.2 |} zero_twist) in
  Qabs (linear_x out) <= Qabs 0.5
  /\ Qabs (linear_y out) <= Qabs 0.1
  /\ Qabs (angular_z out) <= Qabs 0.2
  /\ (Qabs 0.5 <= acc_lim_x_ (params ready) * 0.1 -> linear_x out == 0)
  /\ (Qabs 0.1 <= acc_lim_y_ (params ready) * 0.1 -> linear_y out == 0)
  /\ (Qabs 0.2 <= acc_lim_theta_ (params ready) * 0.1 -> angular_z out == 0).
Proof.
  refine (stopWithAccLimits_slows ready origin
            {| origin_x := 0.5; origin_y := 0.1; getYaw := 0.2 |} zero_twist
            sign_of_bound _ _ _);
    vm_compute; discriminate.
Defined.

(** Turning from rest towards a goal yaw of one radian. *)
Lemma rotateToGoal_bounded_witness :
  let out := snd (rotateToGoal ready origin origin 1 zero_twist) in
  linear_x out = 0
  /\ linear_y out = 0
  /\ Qabs (angular_z out) <= Qabs 0 + acc_lim_theta_ (params ready) * 0.1
  /\ Qabs (angular_z out)
     <= sqrt_of (2 * acc_lim_theta_ (params ready) * fabs (1 - 0)).
Proof.
  refine (rotateToGoal_bounded ready origin origin 1 zero_twist
            sign_of_bound _ _);
    vm_compute; discriminate.
Defined.

(** The planner through a plan, an odometry message and two cycles. *)
Lemma calls_keep_configuration_witness :
  initialized_ ready = true
  /\ exists s',
       calls ready
         [SetPlan short_plan;
          OdomCallback {| linear_x := 0.5; linear_y := 0; angular_z := 0 |};
          ComputeVelocityCommands (env_at origin true) zero_twist;
          ComputeVelocityCommands (env_at away false) zero_twist]
       = Some s'
       /\ initialized_ s' = true
       /\ params s' = params ready.
Proof.
  split; [reflexivity|].
  exact (calls_keep_configuration ready _ eq_refl).
Defined.

(** The defaults are for a missing parameter only: an empty list is
    taken as given. *)
Example loadYVels_examples :
  loadYVels None = Some [-0.3; -0.1; 0.1; 0.3]
  /\ loadYVels (Some (TypeArray [])) = Some []
  /\ loadYVels (Some (TypeArray [TypeInt 1; TypeDouble 0.5]))
     = Some [1; 0.5]
  /\ loadYVels (Some (TypeArray [TypeDouble 0.5; TypeString "0.3"])) = None
  /\ loadYVels (Some (TypeDouble 0.5)) = None.
Proof. repeat split. Qed.

(** Tf extrapolating at the goal. *)
Lemma isGoalReached_refuses_witness :
  value (isGoalReached at_goal (env_without_transform ExtrapolationException))
  = false.
Proof.
  refine (isGoalReached_refuses at_goal
            (env_without_transform ExtrapolationException) _).
  right. exists (waypoint 0.05 0 1), ExtrapolationException.
  split; reflexivity.
Defined.

(** The cycle at the goal, and the question asked once the robot has
    turned. *)
Lemma cycle_keeps_goal_answer_witness :
  exists r,
    computeVelocityCommands at_goal (env_at origin true) zero_twist = Some r
    /\ vec_back (global_plan_ (planner r)) = vec_back (global_plan_ at_goal)
    /\ value (isGoalReached (planner r) (env_at turned true))
       = value (isGoalReached at_goal (env_at turned true)).
Proof.
  refine (cycle_keeps_goal_answer at_goal (env_at origin true)
            (env_at turned true) zero_twist _).
  vm_compute. reflexivity.
Defined.
